(** * Pieper: a chainable asynchronous pipeline (remvze/pieper)

    The repository holds two implementations of the class [Pieper]:
    - the eager one, whose field [value] is a promise that starts to be
      computed when the pipeline is constructed;
    - the lazy one, whose field [thunk] is a function producing that promise,
      called by the terminal operations only.

    Both are embedded below over one model of the JavaScript platform
    (values, exceptions, promises, the console).  Module [JS] is the platform,
    [Eager] and [Lazy] are the two classes, and the theorems follow.

    The model of promises.  A promise is represented by the way it settles,
    fulfilled with a value or rejected with a reason; promises that stay
    pending for ever are left out.  A reaction attached with [then], [catch]
    or [finally] runs where it is attached: the job queue is not separated
    from the call that fills it.  The events of one chain are therefore
    recorded in the order in which the platform produces them, a
    synchronous throw is kept apart from a rejected promise, and the
    interleaving of several chains that run at the same time is not
    modelled. *)

From Stdlib Require Import ZArith String List Bool Lia.
Import ListNotations.
Local Open Scope string_scope.
Local Open Scope list_scope.

(* ===================================================================== *)
(** * The platform *)
(* ===================================================================== *)

Module JS.

(** A promise is represented by the way it eventually settles. *)
Inductive promise_of (A E : Type) : Type :=
| Fulfilled (a : A)
| Rejected (e : E).
Arguments Fulfilled {A E} a.
Arguments Rejected {A E} e.

(** Run-time values.  [VError m] is [new Error(m)]; [VOk v] and [VErr e] are
    the objects [{ ok: true, value: v }] and [{ ok: false, error: e }];
    [VPromise p] is a promise object handed around as a value, and
    [VThenable p] is any other object with a [then] method, which the
    platform adopts as it adopts a promise; [p] is the way its [then]
    settles the promise that adopts it. *)
#[warnings="-register-all"]
Inductive val : Type :=
| VUndefined
| VBool (b : bool)
| VNum (n : Z)
| VStr (s : string)
| VError (message : string)
| VOk (value : val)
| VErr (error : val)
| VPromise (p : promise_of val val)
| VThenable (p : promise_of val val).

(** [Promise<A>]: the rejection reason is any value. *)
Definition promise (A : Type) : Type := promise_of A val.

(** [v] is a thenable: a promise or another object with a [then] method. *)
Definition is_thenable (v : val) : bool :=
  match v with VPromise _ | VThenable _ => true | _ => false end.

(** The promise resolution procedure: resolving with a thenable, a promise
    or not, adopts its state; resolving with anything else fulfils. *)
Fixpoint settle (v : val) : promise val :=
  match v with
  | VPromise p | VThenable p =>
      match p with
      | Fulfilled v' => settle v'
      | Rejected e => Rejected e
      end
  | _ => Fulfilled v
  end.

(** [Promise.resolve(value)] *)
Definition Promise_resolve (value : val) : promise val := settle value.

(** ToBoolean, as used by [if (...)], [!x] and [c ? a : b]. *)
Definition truthy (v : val) : bool :=
  match v with
  | VUndefined => false
  | VBool b => b
  | VNum n => negb (Z.eqb n 0)
  | VStr s => negb (String.eqb s "")
  | VError _ | VOk _ | VErr _ | VPromise _ | VThenable _ => true
  end.

(** [typeof v === "string"] *)
Definition typeof_is_string (v : val) : bool :=
  match v with VStr _ => true | _ => false end.

(** [new Error(msg)] for a string [msg] *)
Definition new_Error (msg : val) : val :=
  match msg with VStr m => VError m | _ => VError "" end.

(** [e.message] *)
Definition message_of (v : val) : option string :=
  match v with VError m => Some m | _ => None end.

(** The error that the argument [errorMessageOrError] of [assert] stands
    for: a new error with that message for a string, the argument itself
    otherwise. *)
Definition error_of (errorMessageOrError : val) : val :=
  if typeof_is_string errorMessageOrError
  then new_Error errorMessageOrError
  else errorMessageOrError.

(** How the evaluation of an expression or a call completes. *)
Inductive completion (A : Type) : Type :=
| Return (a : A)
| Throw (e : val).
Arguments Return {A} a.
Arguments Throw {A} e.

(** What an observer of a run can see: which caller-supplied function was
    called with which argument, and what was written to the console. *)
Inductive event : Type :=
| Invoked (name : string) (arg : val)
| ConsoleLog (args : list val)
| ConsoleError (args : list val).

Section WithWorld.
(** The state that the caller's functions read and write. *)
Context {W : Type}.

Record state : Type := mkState { world : W; trace : list event }.

(** Computations: they transform the state and return or throw.  The state
    reached before a throw is kept. *)
Definition X (A : Type) : Type := state -> completion A * state.

Definition ret {A} (a : A) : X A := fun s => (Return a, s).

Definition throw {A} (e : val) : X A := fun s => (Throw e, s).

Definition bind {A B} (m : X A) (k : A -> X B) : X B :=
  fun s =>
    match m s with
    | (Return a, s') => k a s'
    | (Throw e, s') => (Throw e, s')
    end.

(** [try { body } catch (error) { handler }] *)
Definition try_catch {A} (body : X A) (handler : val -> X A) : X A :=
  fun s =>
    match body s with
    | (Return a, s') => (Return a, s')
    | (Throw e, s') => handler e s'
    end.

Definition emit (ev : event) : X unit :=
  fun s => (Return tt, mkState (world s) (trace s ++ [ev])).

(** A function written by the caller of the library. *)
Record ufun (R : Type) : Type := mkFun {
  name : string;
  body : val -> W -> completion R * W
}.
#[local] Arguments name {R} u.
#[local] Arguments body {R} u.

(** Calling it; a call without arguments passes [VUndefined]. *)
Definition call {R} (f : ufun R) (arg : val) : X R :=
  fun s =>
    let '(c, w') := body f arg (world s) in
    (c, mkState w' (trace s ++ [Invoked (name f) arg])).

(** Callbacks as the library passes them to the promise methods. *)
Definition callback : Type := val -> X val.

Definition console_log (args : list val) : X val :=
  bind (emit (ConsoleLog args)) (fun _ => ret VUndefined).

Definition console_error (args : list val) : X val :=
  bind (emit (ConsoleError args)) (fun _ => ret VUndefined).

(** [await e] inside an async function. *)
Definition await (v : val) : X val :=
  match settle v with
  | Fulfilled a => ret a
  | Rejected e => throw e
  end.

(** The promise made from a piece of code: rejected with what the code
    throws, resolved with what it returns. *)
Definition settling (job : X val) : X (promise val) :=
  fun s =>
    match job s with
    | (Return r, s') => (Return (settle r), s')
    | (Throw e, s') => (Return (Rejected e), s')
    end.

(** The call of an async function with body [fnbody]: it always returns a
    promise and never throws. *)
Definition async (fnbody : X val) : X (promise val) := settling fnbody.

(** The promise object as the value a callback returns. *)
Definition as_value (m : X (promise val)) : X val :=
  fun s =>
    match m s with
    | (Return p, s') => (Return (VPromise p), s')
    | (Throw e, s') => (Throw e, s')
    end.

(** [new Promise((resolve) => { resolve(E) })], [executor] being the
    evaluation of [E]: a throw in the executor rejects. *)
Definition new_Promise (executor : X val) : X (promise val) :=
  settling executor.

(** [p.then(onFulfilled)] *)
Definition then_ (p : promise val) (onFulfilled : callback) : X (promise val) :=
  match p with
  | Fulfilled v => settling (onFulfilled v)
  | Rejected e => ret (Rejected e)
  end.

(** [p.catch(onRejected)] *)
Definition catch_ (p : promise val) (onRejected : callback) : X (promise val) :=
  match p with
  | Fulfilled v => ret (Fulfilled v)
  | Rejected e => settling (onRejected e)
  end.

(** [p.finally(onFinally)]: [onFinally] is called without arguments; its
    result is awaited and dropped, its failure replaces the outcome. *)
Definition finally_ (p : promise val) (onFinally : callback) : X (promise val) :=
  fun s =>
    match onFinally VUndefined s with
    | (Return r, s') =>
        match settle r with
        | Fulfilled _ => (Return p, s')
        | Rejected e' => (Return (Rejected e'), s')
        end
    | (Throw e', s') => (Return (Rejected e'), s')
    end.

(** [x => g(f(x))] *)
Definition compose (g f : callback) : callback :=
  fun x => bind (f x) (fun y => g y).

(** The state after one call, without arguments, of a function named
    [nm] that leaves the world as it is. *)
Definition after_call (nm : string) (s : state) : state :=
  mkState (world s) (trace s ++ [Invoked nm VUndefined]).

(** The outcome of running a chain is a failure: a synchronous throw or a
    rejected promise. *)
Definition failed (o : completion (promise val)) : bool :=
  match o with
  | Return (Fulfilled _) => false
  | Return (Rejected _) | Throw _ => true
  end.

(** A computation replays: what it does depends on the world only, not on
    the events recorded before, and it appends its own events. *)
Definition replays {A} (m : X A) : Prop :=
  forall w t,
    m (mkState w t)
    = (let '(r, s') := m (mkState w []) in
       (r, mkState (world s') (t ++ trace s'))).

End WithWorld.

Arguments state : clear implicits.
Arguments X : clear implicits.
Arguments ufun : clear implicits.
Arguments mkFun {W R} name body.
Arguments name {W R} u.
Arguments body {W R} u.
Arguments callback : clear implicits.

Declare Scope js_scope.
Delimit Scope js_scope with js.
Notation "x <- c1 ;; c2" := (bind c1 (fun x => c2))
  (at level 61, c1 at next level, right associativity) : js_scope.

(** [SafeResult<T>]: one of the two tagged objects. *)
Definition SafeResult (v : val) : Prop :=
  match v with VOk _ | VErr _ => True | _ => False end.

End JS.

(* ===================================================================== *)
(** * The eager class: [value] is computed when the pipeline is built *)
(* ===================================================================== *)

Module Eager.
Import JS.
Local Open Scope js_scope.

Section WithWorld.
Context {W : Type}.

Record Pieper : Type := new_Pieper { value : promise val }.

Definition of_ (value : val) : X W Pieper :=
  ret (new_Pieper (Promise_resolve value)).

Definition from (fn : callback W) : X W Pieper :=
  promise <- new_Promise (fn VUndefined) ;;
  ret (new_Pieper promise).

Definition map (fn : callback W) (this : Pieper) : X W Pieper :=
  newValue <- then_ (value this) fn ;;
  ret (new_Pieper newValue).

Definition ifElse (condition thenFn elseFn : callback W) (this : Pieper)
  : X W Pieper :=
  newValue <- then_ (value this) (fun value => as_value (async (
      c <- condition value ;;
      conditionResult <- await (VPromise (Promise_resolve c)) ;;
      if truthy conditionResult then thenFn value else elseFn value))) ;;
  ret (new_Pieper newValue).

Definition if_ (condition thenFn : callback W) (this : Pieper) : X W Pieper :=
  ifElse condition thenFn (fun value => ret value) this.

Definition tap (fn : callback W) (this : Pieper) : X W Pieper :=
  newValue <- then_ (value this) (fun value => as_value (async (
      r <- fn value ;;
      _ <- await (VPromise (Promise_resolve r)) ;;
      ret value))) ;;
  ret (new_Pieper newValue).

Definition log (message : val) (this : Pieper) : X W Pieper :=
  tap (fun value =>
         if truthy message then console_log [message; value]
         else console_log [value]) this.

Definition catch (fn : callback W) (this : Pieper) : X W Pieper :=
  newValue <- catch_ (value this) fn ;;
  ret (new_Pieper newValue).

Definition finally (fn : callback W) (this : Pieper) : X W Pieper :=
  newValue <- finally_ (value this) fn ;;
  ret (new_Pieper newValue).

Definition assert (predicate : callback W) (errorMessageOrError : val)
    (this : Pieper) : X W Pieper :=
  newValue <- then_ (value this) (fun value => as_value (async (
      c <- predicate value ;;
      isValid <- await (VPromise (Promise_resolve c)) ;;
      if negb (truthy isValid) then
        let error :=
          if typeof_is_string errorMessageOrError
          then new_Error errorMessageOrError
          else errorMessageOrError in
        ret error
      else ret value))) ;;
  ret (new_Pieper newValue).

Definition run (this : Pieper) : X W (promise val) :=
  ret (value this).

Definition runSafe (this : Pieper) : X W (promise val) :=
  async (try_catch
           (value <- await (VPromise (value this)) ;;
            ret (VOk value))
           (fun error => ret (VErr error))).

Definition runAndForget (this : Pieper) : X W val :=
  _ <- catch_ (value this) (fun error =>
         console_error [VStr "Pieper failed (runAndForget):"; error]) ;;
  ret VUndefined.

(** ** Chains as data

    [Pieper.of(v).m1(..)...mk(..)] is a root followed by a list of steps;
    [construct] evaluates the expression, call after call. *)

Inductive root : Type :=
| ROf (value : val)
| RFrom (fn : callback W).

Inductive step : Type :=
| SMap (fn : callback W)
| SIf (condition thenFn : callback W)
| SIfElse (condition thenFn elseFn : callback W)
| STap (fn : callback W)
| SLog (message : val)
| SCatch (fn : callback W)
| SFinally (fn : callback W)
| SAssert (predicate : callback W) (errorMessageOrError : val).

Definition start (r : root) : X W Pieper :=
  match r with
  | ROf value => of_ value
  | RFrom fn => from fn
  end.

Definition apply (st : step) (this : Pieper) : X W Pieper :=
  match st with
  | SMap fn => map fn this
  | SIf condition thenFn => if_ condition thenFn this
  | SIfElse condition thenFn elseFn => ifElse condition thenFn elseFn this
  | STap fn => tap fn this
  | SLog message => log message this
  | SCatch fn => catch fn this
  | SFinally fn => finally fn this
  | SAssert predicate e => assert predicate e this
  end.

Fixpoint chain (this : Pieper) (steps : list step) : X W Pieper :=
  match steps with
  | [] => ret this
  | st :: rest => p <- apply st this ;; chain p rest
  end.

Definition construct (r : root) (steps : list step) : X W Pieper :=
  p <- start r ;; chain p steps.

End WithWorld.
Arguments Pieper : clear implicits.
Arguments root : clear implicits.
Arguments step : clear implicits.
End Eager.

(* ===================================================================== *)
(** * The lazy class: [thunk] is called by the terminal operations *)
(* ===================================================================== *)

Module Lazy.
Import JS.
Local Open Scope js_scope.

Section WithWorld.
Context {W : Type}.

Record Pieper : Type := new_Pieper { thunk : X W (promise val) }.

Definition run (this : Pieper) : X W (promise val) :=
  thunk this.

Definition of_ (value : val) : Pieper :=
  new_Pieper (ret (Promise_resolve value)).

Definition from (fn : callback W) : Pieper :=
  new_Pieper (r <- fn VUndefined ;; ret (Promise_resolve r)).

Definition map (fn : callback W) (this : Pieper) : Pieper :=
  new_Pieper (p <- thunk this ;; then_ p fn).

Definition flatMap (fn : val -> X W Pieper) (this : Pieper) : Pieper :=
  new_Pieper (p <- thunk this ;;
              then_ p (fun value => q <- fn value ;; as_value (run q))).

Definition ifElse (condition thenFn elseFn : callback W) (this : Pieper)
  : Pieper :=
  new_Pieper (p <- thunk this ;;
              then_ p (fun value => as_value (async (
                c <- condition value ;;
                cond <- await c ;;
                if truthy cond then thenFn value else elseFn value)))).

Definition if_ (condition thenFn : callback W) (this : Pieper) : Pieper :=
  ifElse condition thenFn (fun value => ret value) this.

Definition tap (fn : callback W) (this : Pieper) : Pieper :=
  new_Pieper (p <- thunk this ;;
              then_ p (fun value => as_value (async (
                r <- fn value ;;
                _ <- await r ;;
                ret value)))).

Definition log (message : val) (this : Pieper) : Pieper :=
  tap (fun value =>
         if truthy message then console_log [message; value]
         else console_log [value]) this.

Definition catch (fn : callback W) (this : Pieper) : Pieper :=
  new_Pieper (p <- thunk this ;; catch_ p fn).

Definition finally (fn : callback W) (this : Pieper) : Pieper :=
  new_Pieper (p <- thunk this ;; finally_ p fn).

Definition assert (predicate : callback W) (errorMessageOrError : val)
    (this : Pieper) : Pieper :=
  new_Pieper (p <- thunk this ;;
              then_ p (fun value => as_value (async (
                c <- predicate value ;;
                isValid <- await c ;;
                if negb (truthy isValid) then
                  let error :=
                    if typeof_is_string errorMessageOrError
                    then new_Error errorMessageOrError
                    else errorMessageOrError in
                  throw error
                else ret value)))).

Definition runSafe (this : Pieper) : X W (promise val) :=
  async (try_catch
           (p <- thunk this ;;
            value <- await (VPromise p) ;;
            ret (VOk value))
           (fun error => ret (VErr error))).

Definition runAndForget (this : Pieper) : X W val :=
  p <- thunk this ;;
  _ <- catch_ p (fun error =>
         console_error [VStr "Pieper failed (runAndForget):"; error]) ;;
  ret VUndefined.

(** ** Chains as data *)

Inductive root : Type :=
| ROf (value : val)
| RFrom (fn : callback W).

Inductive step : Type :=
| SMap (fn : callback W)
| SFlatMap (fn : val -> X W Pieper)
| SIf (condition thenFn : callback W)
| SIfElse (condition thenFn elseFn : callback W)
| STap (fn : callback W)
| SLog (message : val)
| SCatch (fn : callback W)
| SFinally (fn : callback W)
| SAssert (predicate : callback W) (errorMessageOrError : val).

Definition start (r : root) : Pieper :=
  match r with
  | ROf value => of_ value
  | RFrom fn => from fn
  end.

Definition apply (st : step) (this : Pieper) : Pieper :=
  match st with
  | SMap fn => map fn this
  | SFlatMap fn => flatMap fn this
  | SIf condition thenFn => if_ condition thenFn this
  | SIfElse condition thenFn elseFn => ifElse condition thenFn elseFn this
  | STap fn => tap fn this
  | SLog message => log message this
  | SCatch fn => catch fn this
  | SFinally fn => finally fn this
  | SAssert predicate e => assert predicate e this
  end.

Definition chain (this : Pieper) (steps : list step) : Pieper :=
  fold_left (fun p st => apply st p) steps this.

(** The evaluation of the expression that builds a chain: every
    constructor and method call returns a newly allocated pipeline. *)
Fixpoint chaining (this : Pieper) (steps : list step) : X W Pieper :=
  match steps with
  | [] => ret this
  | st :: rest => p <- ret (apply st this) ;; chaining p rest
  end.

Definition construct (r : root) (steps : list step) : X W Pieper :=
  p <- ret (start r) ;; chaining p steps.

(** [if], following the words of the specification: the condition is
    evaluated on the value and awaited; when it holds the step behaves as
    [map] with [thenFn], otherwise the value passes through unchanged; a
    failure raised by the condition fails the chain; on a failure from
    before, neither function is called. *)
Definition if_spec (condition thenFn : callback W) (this : Pieper) : Pieper :=
  new_Pieper (fun s =>
    match thunk this s with
    | (Return (Fulfilled value), s1) =>
        match condition value s1 with
        | (Return c, s2) =>
            match settle c with
            | Fulfilled b =>
                if truthy b then thunk (map thenFn (of_ value)) s2
                else (Return (Fulfilled value), s2)
            | Rejected e => (Return (Rejected e), s2)
            end
        | (Throw e, s2) => (Return (Rejected e), s2)
        end
    | failure => failure
    end).

(** Every callback of a step replays; the pipelines that a [flatMap]
    function returns replay as well. *)
Definition replaying_step (st : step) : Prop :=
  match st with
  | SMap fn | STap fn | SCatch fn | SFinally fn => forall x, replays (fn x)
  | SFlatMap fn =>
      forall x, replays (fn x)
                /\ forall s q s', fn x s = (Return q, s') -> replays (thunk q)
  | SIf c t => forall x, replays (c x) /\ replays (t x)
  | SIfElse c t e => forall x, replays (c x) /\ replays (t x) /\ replays (e x)
  | SLog _ => True
  | SAssert predicate _ => forall x, replays (predicate x)
  end.

Definition replaying_root (r : root) : Prop :=
  match r with
  | ROf _ => True
  | RFrom fn => replays (fn VUndefined)
  end.

(** The steps built on [then]: the ones a failure passes by. *)
Definition on_success_only (st : step) : bool :=
  match st with
  | SMap _ | SFlatMap _ | SIf _ _ | SIfElse _ _ _ | STap _ | SLog _
  | SAssert _ _ => true
  | SCatch _ | SFinally _ => false
  end.

End WithWorld.
Arguments Pieper : clear implicits.
Arguments root : clear implicits.
Arguments step : clear implicits.
End Lazy.

(* ===================================================================== *)
(** * Functions and states used in the examples *)
(* ===================================================================== *)

Module Examples.
Import JS.
Local Open Scope Z_scope.

(** A function without effects that returns [f x]. *)
Definition pure_fun {W} (nm : string) (f : val -> val) : ufun W val :=
  mkFun nm (fun x w => (Return (f x), w)).

(** [() => { throw E }] *)
Definition thrower {W} (nm : string) (E : val) : ufun W val :=
  mkFun nm (fun _ w => (Throw E, w)).

(** Arithmetic on a number; anything else gives [undefined]. *)
Definition on_num (f : Z -> val) (x : val) : val :=
  match x with VNum n => f n | _ => VUndefined end.

Definition s0 : state unit := mkState tt [].

Definition times10 {W} : ufun W val :=
  pure_fun "x => x * 10" (on_num (fun n => VNum (n * 10))).
Definition plus1 {W} : ufun W val :=
  pure_fun "x => x + 1" (on_num (fun n => VNum (n + 1))).
Definition plus2 {W} : ufun W val :=
  pure_fun "x => x + 2" (on_num (fun n => VNum (n + 2))).
Definition gt5 {W} : ufun W val :=
  pure_fun "x => x > 5" (on_num (fun n => VBool (5 <? n))).
Definition gt20 {W} : ufun W val :=
  pure_fun "x => x > 20" (on_num (fun n => VBool (20 <? n))).
Definition boom {W} : ufun W val :=
  thrower "() => { throw new Error('boom') }" (VError "boom").
Definition zero {W} : ufun W val :=
  pure_fun "e => 0" (fun _ => VNum 0).
Definition noop {W} : ufun W val :=
  pure_fun "() => {}" (fun _ => VUndefined).


(** [x => ({ then(resolve) { resolve(x + 1) } })]: the result is a thenable
    that is not a promise. *)
Definition plus1_thenable {W} : ufun W val :=
  pure_fun "x => ({ then(resolve) { resolve(x + 1) } })"
    (on_num (fun n => VThenable (Fulfilled (VNum (n + 1))))).

(** [x => typeof x === 'number'] *)
Definition is_number {W} : ufun W val :=
  pure_fun "x => typeof x === 'number'"
    (fun x => match x with VNum _ => VBool true | _ => VBool false end).

(** [() => ++n], over a world that is the counter [n]. *)
Definition next : ufun Z val :=
  mkFun "() => ++n" (fun _ n => (Return (VNum (n + 1)), n + 1)).

Definition c0 : state Z := mkState 0 [].

End Examples.

(* ===================================================================== *)
(** * The two classes side by side *)
(* ===================================================================== *)

Module Bridge.
Import JS.

(** A promise as the platform makes them: not fulfilled with a thenable. *)
Definition plainly_settled (p : promise val) : bool :=
  match p with
  | Fulfilled v => negb (is_thenable v)
  | Rejected _ => true
  end.

(** The outcome of a run, when it is a promise, is such a promise. *)
Definition plain_outcome (o : completion (promise val)) : bool :=
  match o with
  | Return p => plainly_settled p
  | Throw _ => true
  end.

Section WithWorld.
Context {W : Type}.

(** The steps of the eager class built on [then]. *)
Definition on_success_only (st : Eager.step W) : bool :=
  match st with
  | Eager.SCatch _ | Eager.SFinally _ => false
  | _ => true
  end.

Definition no_assert (st : Eager.step W) : bool :=
  match st with
  | Eager.SAssert _ _ => false
  | _ => true
  end.

(** The same root and the same step, written for the lazy class. *)
Definition lazy_root (r : Eager.root W) : Lazy.root W :=
  match r with
  | Eager.ROf value => Lazy.ROf value
  | Eager.RFrom fn => Lazy.RFrom fn
  end.

Definition lazy_step (st : Eager.step W) : Lazy.step W :=
  match st with
  | Eager.SMap fn => Lazy.SMap fn
  | Eager.SIf condition thenFn => Lazy.SIf condition thenFn
  | Eager.SIfElse condition thenFn elseFn => Lazy.SIfElse condition thenFn elseFn
  | Eager.STap fn => Lazy.STap fn
  | Eager.SLog message => Lazy.SLog message
  | Eager.SCatch fn => Lazy.SCatch fn
  | Eager.SFinally fn => Lazy.SFinally fn
  | Eager.SAssert predicate e => Lazy.SAssert predicate e
  end.

(** Passing a value through a list of functions, one after the other: each
    is called with what the one before gave, its result is awaited, and the
    first one that throws or gives a rejected promise ends the loop. *)
Fixpoint pipe_through (fns : list (callback W)) (v : val) (s : state W)
  : completion (promise val) * state W :=
  match fns with
  | [] => (Return (Fulfilled v), s)
  | fn :: rest =>
      match fn v s with
      | (Return r, s') =>
          match settle r with
          | Fulfilled a => pipe_through rest a s'
          | Rejected e => (Return (Rejected e), s')
          end
      | (Throw e, s') => (Return (Rejected e), s')
      end
  end.

(** ** What running a lazy chain does, step by step

    The outcome of the root, then each step in turn on the promise that the
    steps before it gave. *)

Definition root_outcome (r : Lazy.root W) : X W (promise val) :=
  match r with
  | Lazy.ROf value => ret (settle value)
  | Lazy.RFrom fn => bind (fn VUndefined) (fun x => ret (settle x))
  end.

Definition execute_step (st : Lazy.step W) (p : promise val) : X W (promise val) :=
  match p with
  | Rejected e =>
      match st with
      | Lazy.SCatch fn => settling (fn e)
      | Lazy.SFinally fn => finally_ p fn
      | _ => ret (Rejected e)
      end
  | Fulfilled v =>
      match st with
      | Lazy.SMap fn => settling (fn v)
      | Lazy.SFlatMap fn =>
          settling (bind (fn v) (fun q => as_value (Lazy.run q)))
      | Lazy.SIf condition thenFn =>
          settling (bind (condition v) (fun c =>
                    bind (await c) (fun b =>
                    if truthy b then thenFn v else ret v)))
      | Lazy.SIfElse condition thenFn elseFn =>
          settling (bind (condition v) (fun c =>
                    bind (await c) (fun b =>
                    if truthy b then thenFn v else elseFn v)))
      | Lazy.STap fn =>
          settling (bind (fn v) (fun r =>
                    bind (await r) (fun _ => ret v)))
      | Lazy.SLog message =>
          settling (bind (console_log (if truthy message then [message; v] else [v]))
                      (fun _ => ret v))
      | Lazy.SCatch _ => ret (Fulfilled v)
      | Lazy.SFinally fn => finally_ p fn
      | Lazy.SAssert predicate err =>
          settling (bind (predicate v) (fun c =>
                    bind (await c) (fun b =>
                    if truthy b then ret v else throw (error_of err))))
      end
  end.

Fixpoint execute_steps (steps : list (Lazy.step W)) (p : promise val)
  : X W (promise val) :=
  match steps with
  | [] => ret p
  | st :: rest => bind (execute_step st p) (execute_steps rest)
  end.

Definition execute (r : Lazy.root W) (steps : list (Lazy.step W))
  : X W (promise val) :=
  bind (root_outcome r) (execute_steps steps).

(** What [runSafe()] makes of an execution: it never throws, and resolves
    to one of the two tagged objects. *)
Definition safely (x : completion (promise val) * state W)
  : completion (promise val) * state W :=
  let '(o, s') := x in
  (Return (Fulfilled
     match o with
     | Return p =>
         match settle (VPromise p) with
         | Fulfilled v => VOk v
         | Rejected e => VErr e
         end
     | Throw e => VErr e
     end), s').

(** What [runAndForget()] makes of an execution: the value is dropped, a
    rejection is written to the console, a synchronous throw goes on. *)
Definition forgetting (x : completion (promise val) * state W)
  : completion val * state W :=
  let '(o, s') := x in
  match o with
  | Return (Fulfilled _) => (Return VUndefined, s')
  | Return (Rejected e) =>
      (Return VUndefined,
       mkState (world s')
         (trace s' ++ [ConsoleError [VStr "Pieper failed (runAndForget):"; e]]))
  | Throw e => (Throw e, s')
  end.

(** The root producer returns when it is called in state [s]. *)
Definition root_returns (r : Eager.root W) (s : state W) : Prop :=
  match r with
  | Eager.ROf _ => True
  | Eager.RFrom fn => exists x s', fn VUndefined s = (Return x, s')
  end.

End WithWorld.
End Bridge.

(* ===================================================================== *)
(** * Facts about the platform *)
(* ===================================================================== *)

Section PlatformFacts.
Import JS.
Context {W : Type}.
Implicit Types (v e r : val) (p : promise val) (s : state W).

Lemma settle_plain v : is_thenable v = false -> settle v = Fulfilled v.
Proof. destruct v; simpl; intros H; try reflexivity; discriminate. Qed.

(** A promise never fulfils with a thenable. *)
Lemma settle_fulfilled : forall v a, settle v = Fulfilled a -> is_thenable a = false.
Proof.
  fix IH 1.
  intros v a; destruct v as [ | | | | | | | q | q]; simpl;
    try (intros H; inversion H; reflexivity);
    (destruct q as [v' | e]; [apply IH | discriminate]).
Qed.

Lemma settle_settled v : settle (VPromise (settle v)) = settle v.
Proof.
  simpl. destruct (settle v) as [a | e] eqn:E; [ | reflexivity].
  apply settle_plain. exact (settle_fulfilled _ _ E).
Qed.

Lemma await_resolved v (s : state W) :
  await (VPromise (Promise_resolve v)) s = await v s.
Proof. unfold await, Promise_resolve. now rewrite settle_settled. Qed.

Lemma bind_ret {A B} (a : A) (k : A -> X W B) s : bind (ret a) k s = k a s.
Proof. reflexivity. Qed.

Lemma bind_return {A B} (m : X W A) (k : A -> X W B) s a s' :
  m s = (Return a, s') -> bind m k s = k a s'.
Proof. unfold bind; now intros ->. Qed.

Lemma bind_throw {A B} (m : X W A) (k : A -> X W B) s e s' :
  m s = (Throw e, s') -> bind m k s = (Throw e, s').
Proof. unfold bind; now intros ->. Qed.

(** A promise method never throws: it always hands back a promise. *)
Lemma settling_returns (job : X W val) s :
  exists q, settling job s = (Return q, snd (job s)).
Proof.
  unfold settling. destruct (job s) as [[r | e] s']; simpl; eauto.
Qed.

Lemma then_rejected e (fn : callback W) s :
  then_ (Rejected e) fn s = (Return (Rejected e), s).
Proof. reflexivity. Qed.

Lemma catch_fulfilled v (fn : callback W) s :
  catch_ (Fulfilled v) fn s = (Return (Fulfilled v), s).
Proof. reflexivity. Qed.

End PlatformFacts.

(** Unfolds the combinators of the model in a goal that runs a chain. *)
Ltac unfold_js :=
  cbv beta iota delta
    [JS.bind JS.ret JS.throw JS.try_catch JS.async JS.as_value JS.new_Promise
     JS.settling JS.then_ JS.catch_ JS.finally_ JS.await JS.Promise_resolve
     JS.call JS.console_log JS.console_error JS.emit] in *.

(* ===================================================================== *)
(** * Terminal operations *)
(* ===================================================================== *)

Section RunSafe.
Import JS.
Context {W : Type}.

(** C5.  [runSafe()] never throws and never returns a rejected promise,
    whatever the chain does.  In the lazy class, where running the chain
    gives a promise [p], a fulfilled [p] gives [{ok: true, value}] and a
    rejected one [{ok: false, error}]; where running the chain throws
    synchronously, the thrown value is the [error].  In the eager class
    the same holds of the stored promise.  ([settle (VPromise p)] is how [p]
    settles.) *)
Theorem runSafe_always_resolves :
  (forall (this : Lazy.Pieper W) (s : state W),
      exists r,
        Lazy.runSafe this s = (Return (Fulfilled r), snd (Lazy.run this s))
        /\ SafeResult r
        /\ match fst (Lazy.run this s) with
           | Return p =>
               match settle (VPromise p) with
               | Fulfilled v => r = VOk v
               | Rejected e => r = VErr e
               end
           | Throw e => r = VErr e
           end)
  /\
  (forall (this : Eager.Pieper) (s : state W),
      exists r,
        Eager.runSafe this s = (Return (Fulfilled r), s)
        /\ SafeResult r
        /\ match settle (VPromise (Eager.value this)) with
           | Fulfilled v => r = VOk v
           | Rejected e => r = VErr e
           end).
Proof.
  split.
  - intros this s. unfold Lazy.runSafe, Lazy.run. unfold_js.
    destruct (Lazy.thunk this s) as [[p | e] s1]; simpl.
    + destruct p as [v | e]; simpl.
      * destruct (settle v) as [a | e]; simpl; eexists; repeat split.
      * eexists; repeat split.
    + eexists; repeat split.
  - intros this s. unfold Eager.runSafe. unfold_js.
    destruct (Eager.value this) as [v | e]; simpl.
    + destruct (settle v) as [a | e]; simpl; eexists; repeat split.
    + eexists; repeat split.
Qed.

(** On a promise that settled the way promises do (never fulfilled with a
    promise) the result carries the value itself. *)
Lemma Lazy_runSafe_success (this : Lazy.Pieper W) s v s' :
  Lazy.run this s = (Return (Fulfilled v), s') ->
  is_thenable v = false ->
  Lazy.runSafe this s = (Return (Fulfilled (VOk v)), s').
Proof.
  unfold Lazy.runSafe, Lazy.run. unfold_js. intros -> Hv. simpl.
  now rewrite (settle_plain _ Hv).
Qed.

Lemma Lazy_runSafe_rejected (this : Lazy.Pieper W) s e s' :
  Lazy.run this s = (Return (Rejected e), s') ->
  Lazy.runSafe this s = (Return (Fulfilled (VErr e)), s').
Proof. unfold Lazy.runSafe, Lazy.run. unfold_js. now intros ->. Qed.

Lemma Lazy_runSafe_thrown (this : Lazy.Pieper W) s e s' :
  Lazy.run this s = (Throw e, s') ->
  Lazy.runSafe this s = (Return (Fulfilled (VErr e)), s').
Proof. unfold Lazy.runSafe, Lazy.run. unfold_js. now intros ->. Qed.

End RunSafe.

(* ===================================================================== *)
(** * A root producer that throws *)
(* ===================================================================== *)

Section ThrowingRoot.
Import JS Examples.
Local Open Scope js_scope.
Context {W : Type}.

(** The eager [from] runs the producer inside the executor of a promise:
    it returns a pipeline whatever the producer does, and a throw becomes
    a rejection. *)
Lemma Eager_from_never_throws (fn : callback W) (s : state W) :
  exists p,
    Eager.from fn s = (Return p, snd (fn VUndefined s))
    /\ forall E, fst (fn VUndefined s) = Throw E -> Eager.value p = Rejected E.
Proof.
  unfold Eager.from. unfold_js.
  destruct (fn VUndefined s) as [[r | e] s']; simpl; eexists; split;
    try reflexivity; simpl; intros E H; now inversion H.
Qed.

Lemma Eager_from_thrower (nm : string) (E : val) (s : state W) :
  Eager.from (call (thrower nm E)) s
  = (Return (Eager.new_Pieper (Rejected E)), after_call nm s).
Proof. reflexivity. Qed.

(** C2.  In the lazy class the thunk of [from(fn)] is
    [() => Promise.resolve(fn())]: when [fn] throws [E], [run()] throws [E]
    synchronously and no promise is returned.  [runSafe()] does resolve to
    [{ok: false, error: E}], and the eager [from] returns a pipeline whose
    value is rejected with [E]. *)
Theorem Lazy_run_from_throws_synchronously
    (fn : callback W) (s : state W) (E : val) (s' : state W) :
  fn VUndefined s = (Throw E, s') ->
  Lazy.run (Lazy.from fn) s = (Throw E, s')
  /\ Lazy.runSafe (Lazy.from fn) s = (Return (Fulfilled (VErr E)), s')
  /\ Eager.from fn s = (Return (Eager.new_Pieper (Rejected E)), s').
Proof.
  intros Hfn. repeat split.
  - unfold Lazy.run, Lazy.from; simpl. now apply bind_throw.
  - apply Lazy_runSafe_thrown.
    unfold Lazy.run, Lazy.from; simpl. now apply bind_throw.
  - unfold Eager.from, new_Promise. unfold bind at 1. unfold settling.
    now rewrite Hfn.
Qed.

(** [runSafe()] does catch it. *)
Lemma Lazy_runSafe_from_thrower (nm : string) (E : val) (s : state W) :
  Lazy.runSafe (Lazy.from (call (thrower nm E))) s
  = (Return (Fulfilled (VErr E)), after_call nm s).
Proof. reflexivity. Qed.

(** C3.  In the lazy class, when the chain before [catch(fn)] throws [E]
    synchronously, as [from(() => { throw E })] does, [run()] throws [E]
    synchronously as well and ends in the state that the throw left: the
    thunk of [catch] calls the previous thunk before it can attach [fn], and
    [fn] is never called. *)
Theorem Lazy_catch_misses_synchronous_throw
    (this : Lazy.Pieper W) (fn : callback W) (s : state W) (E : val) (s' : state W) :
  Lazy.run this s = (Throw E, s') ->
  Lazy.run (Lazy.catch fn this) s = (Throw E, s').
Proof.
  unfold Lazy.run, Lazy.catch; simpl. intros H. now apply bind_throw.
Qed.

(** What [catch] does when the chain before it gave a promise. *)
Lemma Lazy_catch_rejected (fn : callback W) (this : Lazy.Pieper W) s e s' :
  Lazy.run this s = (Return (Rejected e), s') ->
  Lazy.run (Lazy.catch fn this) s = settling (fn e) s'.
Proof. unfold Lazy.run, Lazy.catch; simpl. intros H. now rewrite (bind_return _ _ _ _ _ H). Qed.

Lemma Lazy_catch_recovers (fn : callback W) (this : Lazy.Pieper W) s e s' R s'' :
  Lazy.run this s = (Return (Rejected e), s') ->
  fn e s' = (Return R, s'') ->
  Lazy.run (Lazy.catch fn this) s = (Return (Promise_resolve R), s'').
Proof.
  intros H Hfn. rewrite (Lazy_catch_rejected _ _ _ _ _ H).
  unfold settling. now rewrite Hfn.
Qed.

Lemma Lazy_catch_handler_throws (fn : callback W) (this : Lazy.Pieper W) s e s' e' s'' :
  Lazy.run this s = (Return (Rejected e), s') ->
  fn e s' = (Throw e', s'') ->
  Lazy.run (Lazy.catch fn this) s = (Return (Rejected e'), s'').
Proof.
  intros H Hfn. rewrite (Lazy_catch_rejected _ _ _ _ _ H).
  unfold settling. now rewrite Hfn.
Qed.

Lemma Lazy_catch_pass_through (fn : callback W) (this : Lazy.Pieper W) s v s' :
  Lazy.run this s = (Return (Fulfilled v), s') ->
  Lazy.run (Lazy.catch fn this) s = (Return (Fulfilled v), s').
Proof. unfold Lazy.run, Lazy.catch; simpl. intros H. now rewrite (bind_return _ _ _ _ _ H). Qed.

(** The eager class does recover. *)
Lemma Eager_catch_recovers (nm rn : string) (E R : val) (s : state W) :
  is_thenable R = false ->
  (p <- Eager.construct (Eager.RFrom (call (thrower nm E)))
          [Eager.SCatch (call (pure_fun rn (fun _ => R)))] ;;
   Eager.run p) s
  = (Return (Fulfilled R),
     mkState (world s) ((trace s ++ [Invoked nm VUndefined]) ++ [Invoked rn E])).
Proof.
  intros HR. unfold Eager.construct, Eager.start, Eager.chain, Eager.apply,
    Eager.catch, Eager.from, Eager.run. unfold_js. simpl.
  now rewrite (settle_plain _ HR).
Qed.

(** C8.  In the lazy class, when the chain before [finally(fn)] throws [E]
    synchronously, as [from(() => { throw E })] does, [run()] throws [E] and
    ends in the state that the throw left, so [fn] is not called: the thunk
    of [finally] calls the previous thunk before it can attach [fn]. *)
Theorem Lazy_finally_skipped_on_synchronous_throw
    (this : Lazy.Pieper W) (fn : callback W) (s : state W) (E : val) (s' : state W) :
  Lazy.run this s = (Throw E, s') ->
  Lazy.run (Lazy.finally fn this) s = (Throw E, s').
Proof.
  unfold Lazy.run, Lazy.finally; simpl. intros H. now apply bind_throw.
Qed.

(** What [finally] does when the chain before it gave a promise [p]:
    [fn] is called once, and [p] is the outcome unless [fn] fails. *)
Lemma Lazy_finally_settled (fn : callback W) (this : Lazy.Pieper W) s p s' :
  Lazy.run this s = (Return p, s') ->
  Lazy.run (Lazy.finally fn this) s = finally_ p fn s'.
Proof. unfold Lazy.run, Lazy.finally; simpl. intros H. now rewrite (bind_return _ _ _ _ _ H). Qed.

Lemma Lazy_finally_keeps (f : ufun W val) (this : Lazy.Pieper W) s p s' r w' :
  Lazy.run this s = (Return p, s') ->
  body f VUndefined (world s') = (Return r, w') ->
  is_thenable r = false ->
  Lazy.run (Lazy.finally (call f) this) s
  = (Return p, mkState w' (trace s' ++ [Invoked (name f) VUndefined])).
Proof.
  intros H Hf Hr. rewrite (Lazy_finally_settled _ _ _ _ _ H).
  unfold finally_, call. rewrite Hf. now rewrite (settle_plain _ Hr).
Qed.

Lemma Lazy_finally_overrides (f : ufun W val) (this : Lazy.Pieper W) s p s' e' w' :
  Lazy.run this s = (Return p, s') ->
  body f VUndefined (world s') = (Throw e', w') ->
  Lazy.run (Lazy.finally (call f) this) s
  = (Return (Rejected e'), mkState w' (trace s' ++ [Invoked (name f) VUndefined])).
Proof.
  intros H Hf. rewrite (Lazy_finally_settled _ _ _ _ _ H).
  unfold finally_, call. now rewrite Hf.
Qed.

End ThrowingRoot.

(** [from(() => { throw new Error("boom") })] *)
Lemma Lazy_run_from_throws_witness :
  Lazy.run (Lazy.from (JS.call Examples.boom)) Examples.s0
  = (JS.Throw (JS.VError "boom"),
     JS.after_call "() => { throw new Error('boom') }" Examples.s0).
Proof.
  apply (Lazy_run_from_throws_synchronously (JS.call Examples.boom) Examples.s0).
  reflexivity.
Defined.

(** [from(() => { throw new Error("boom") }).catch(e => 0)]: [e => 0] is
    not among the calls. *)
Lemma Lazy_catch_misses_witness :
  Lazy.run (Lazy.catch (JS.call Examples.zero) (Lazy.from (JS.call Examples.boom)))
    Examples.s0
  = (JS.Throw (JS.VError "boom"),
     JS.after_call "() => { throw new Error('boom') }" Examples.s0).
Proof.
  apply (Lazy_catch_misses_synchronous_throw
           (Lazy.from (JS.call Examples.boom)) (JS.call Examples.zero) Examples.s0).
  reflexivity.
Defined.

(** [from(() => { throw new Error("boom") }).finally(() => {})]:
    [() => {}] is not among the calls. *)
Lemma Lazy_finally_skipped_witness :
  Lazy.run (Lazy.finally (JS.call Examples.noop) (Lazy.from (JS.call Examples.boom)))
    Examples.s0
  = (JS.Throw (JS.VError "boom"),
     JS.after_call "() => { throw new Error('boom') }" Examples.s0).
Proof.
  apply (Lazy_finally_skipped_on_synchronous_throw
           (Lazy.from (JS.call Examples.boom)) (JS.call Examples.noop) Examples.s0).
  reflexivity.
Defined.

(** [from(() => { throw new Error("boom") }).map(x => x * 10).catch(e => 0)],
    built and run in the eager class, resolves to 0. *)
Example Eager_catch_example :
  JS.bind (Eager.construct (Eager.RFrom (JS.call Examples.boom))
             [Eager.SMap (JS.call Examples.times10);
              Eager.SCatch (JS.call Examples.zero)])
          Eager.run Examples.s0
  = (JS.Return (JS.Fulfilled (JS.VNum 0)),
     JS.mkState tt [JS.Invoked "() => { throw new Error('boom') }" JS.VUndefined;
                    JS.Invoked "e => 0" (JS.VError "boom")]).
Proof. reflexivity. Qed.

(** The same chain run in the lazy class throws, and [e => 0] is not
    called. *)
Example Lazy_catch_example :
  Lazy.run (Lazy.catch (JS.call Examples.zero)
              (Lazy.map (JS.call Examples.times10)
                 (Lazy.from (JS.call Examples.boom))))
    Examples.s0
  = (JS.Throw (JS.VError "boom"),
     JS.mkState tt [JS.Invoked "() => { throw new Error('boom') }" JS.VUndefined]).
Proof. reflexivity. Qed.

(** [of(5).map(x => x + 1).finally(() => {}).run()] resolves to 6, and the
    effect function is called once. *)
Example Lazy_finally_example :
  Lazy.run (Lazy.finally (JS.call Examples.noop)
              (Lazy.map (JS.call Examples.plus1) (Lazy.of_ (JS.VNum 5))))
    Examples.s0
  = (JS.Return (JS.Fulfilled (JS.VNum 6)),
     JS.mkState tt [JS.Invoked "x => x + 1" (JS.VNum 5);
                    JS.Invoked "() => {}" JS.VUndefined]).
Proof. reflexivity. Qed.

(* ===================================================================== *)
(** * Validation *)
(* ===================================================================== *)

Section Assert.
Import JS Examples.
Local Open Scope js_scope.
Context {W : Type}.

(** The lazy [assert] throws the error inside the callback: the pipeline
    fails with it, and [runSafe()] gives [{ok: false, error}]. *)
Lemma Lazy_assert_false_rejects
    (predicate : callback W) (err : val) (this : Lazy.Pieper W) s v s1 c s2 b :
  Lazy.run this s = (Return (Fulfilled v), s1) ->
  predicate v s1 = (Return c, s2) ->
  settle c = Fulfilled b ->
  truthy b = false ->
  Lazy.run (Lazy.assert predicate err this) s = (Return (Rejected (error_of err)), s2)
  /\ Lazy.runSafe (Lazy.assert predicate err this) s
     = (Return (Fulfilled (VErr (error_of err))), s2).
Proof.
  unfold Lazy.run, Lazy.runSafe, Lazy.assert; simpl. intros H Hp Hc Hb.
  unfold_js.
  split; rewrite H; simpl; rewrite Hp; simpl; rewrite Hc; simpl;
    now rewrite Hb.
Qed.

Lemma Lazy_assert_message (m : string) : message_of (error_of (VStr m)) = Some m.
Proof. reflexivity. Qed.

(** The eager [assert] returns the error from the callback: the new value
    is a promise fulfilled with the error. *)
Lemma Eager_assert_false_fulfils
    (predicate : callback W) (err : val) (this : Eager.Pieper) s v c s2 b :
  Eager.value this = Fulfilled v ->
  predicate v s = (Return c, s2) ->
  settle c = Fulfilled b ->
  truthy b = false ->
  is_thenable (error_of err) = false ->
  Eager.assert predicate err this s
  = (Return (Eager.new_Pieper (Fulfilled (error_of err))), s2).
Proof.
  unfold Eager.assert. intros H Hp Hc Hb He. rewrite H.
  unfold_js. rewrite Hp; simpl. rewrite Hc; simpl.
  rewrite (settle_plain b (settle_fulfilled _ _ Hc)); simpl.
  rewrite Hb; simpl. fold (error_of err).
  rewrite (settle_plain _ He); simpl. now rewrite (settle_plain _ He).
Qed.

(** C1.  In the eager class, when the pipeline carries [v] and the
    predicate yields false on [v] (or a promise of false),
    [assert(predicate, m).runSafe()] resolves to
    [{ok: true, value: Error(m)}]: the failed assertion leaves the pipeline
    in the success state, with the error as its value. *)
Theorem Eager_assert_failure_is_a_success
    (predicate : callback W) (m : string) (this : Eager.Pieper) s v c s2 b :
  Eager.value this = Fulfilled v ->
  predicate v s = (Return c, s2) ->
  settle c = Fulfilled b ->
  truthy b = false ->
  (p <- Eager.assert predicate (VStr m) this ;; Eager.runSafe p) s
  = (Return (Fulfilled (VOk (VError m))), s2).
Proof.
  intros H Hp Hc Hb.
  rewrite (bind_return _ _ _ _ _
             (Eager_assert_false_fulfils predicate (VStr m) this s v c s2 b
                H Hp Hc Hb eq_refl)).
  reflexivity.
Qed.

End Assert.

(** In the eager class
    [of(1).map(x => x * 10).assert(x => x > 20, "too small").runSafe()]
    resolves to [{ok: true, value: Error("too small")}]. *)
Example Eager_assert_example :
  JS.bind (Eager.construct (Eager.ROf (JS.VNum 1))
             [Eager.SMap (JS.call Examples.times10);
              Eager.SAssert (JS.call Examples.gt20) (JS.VStr "too small")])
          Eager.runSafe Examples.s0
  = (JS.Return (JS.Fulfilled (JS.VOk (JS.VError "too small"))),
     JS.mkState tt [JS.Invoked "x => x * 10" (JS.VNum 1);
                    JS.Invoked "x => x > 20" (JS.VNum 10)]).
Proof. reflexivity. Qed.

(** A pipeline carrying 10, followed by [assert(x => x > 20, "too small")]. *)
Lemma Eager_assert_failure_witness :
  JS.bind (Eager.assert (JS.call Examples.gt20) (JS.VStr "too small")
             (Eager.new_Pieper (JS.Fulfilled (JS.VNum 10))))
          Eager.runSafe Examples.s0
  = (JS.Return (JS.Fulfilled (JS.VOk (JS.VError "too small"))),
     JS.mkState tt [JS.Invoked "x => x > 20" (JS.VNum 10)]).
Proof.
  apply (Eager_assert_failure_is_a_success (JS.call Examples.gt20) "too small"
           (Eager.new_Pieper (JS.Fulfilled (JS.VNum 10))) Examples.s0
           (JS.VNum 10) (JS.VBool false) _ (JS.VBool false));
    reflexivity.
Defined.

(** The same chain in the lazy class fails with the error. *)
Example Lazy_assert_example :
  Lazy.runSafe
    (Lazy.assert (JS.call Examples.gt20) (JS.VStr "too small")
       (Lazy.map (JS.call Examples.times10) (Lazy.of_ (JS.VNum 1))))
    Examples.s0
  = (JS.Return (JS.Fulfilled (JS.VErr (JS.VError "too small"))),
     JS.mkState tt [JS.Invoked "x => x * 10" (JS.VNum 1);
                    JS.Invoked "x => x > 20" (JS.VNum 10)]).
Proof. reflexivity. Qed.

(* ===================================================================== *)
(** * Failure passes the steps built on [then] *)
(* ===================================================================== *)

Section ShortCircuit.
Import JS.
Local Open Scope js_scope.
Context {W : Type}.

Lemma then_after_failure (m : X W (promise val)) (fn : callback W) s :
  failed (fst (m s)) = true ->
  bind m (fun p => then_ p fn) s = m s.
Proof.
  unfold bind. destruct (m s) as [[[v | e] | e] s']; simpl; intros H;
    try discriminate; reflexivity.
Qed.

Lemma Lazy_step_after_failure (st : Lazy.step W) (this : Lazy.Pieper W) s :
  failed (fst (Lazy.run this s)) = true ->
  Lazy.on_success_only st = true ->
  Lazy.run (Lazy.apply st this) s = Lazy.run this s.
Proof.
  unfold Lazy.run. intros H Hst.
  destruct st; simpl in Hst; try discriminate; simpl;
    now apply then_after_failure.
Qed.

(** C6.  Once the chain has failed (its run throws or gives a rejected
    promise), any number of [map], [flatMap], [if], [ifElse], [tap], [log]
    and [assert] steps chained after it change nothing: the run of the
    longer chain ends with the same failure in the same state, so none of
    their functions was called. *)
Theorem Lazy_failure_short_circuits (this : Lazy.Pieper W) (s : state W) :
  failed (fst (Lazy.run this s)) = true ->
  forall steps,
    forallb Lazy.on_success_only steps = true ->
    Lazy.run (Lazy.chain this steps) s = Lazy.run this s.
Proof.
  intros H steps; revert this H.
  induction steps as [ | st rest IH]; intros this H Hsteps; [reflexivity | ].
  simpl in Hsteps. apply andb_prop in Hsteps as [Hst Hrest].
  change (Lazy.chain this (st :: rest))
    with (Lazy.chain (Lazy.apply st this) rest).
  pose proof (Lazy_step_after_failure st this s H Hst) as Hstep.
  rewrite IH; [exact Hstep | now rewrite Hstep | exact Hrest].
Qed.

(** The eager class: a step chained onto a rejected value returns a
    pipeline with the same rejection and runs nothing. *)
Lemma Eager_step_after_failure (st : Eager.step W) (this : Eager.Pieper) e s :
  Eager.value this = Rejected e ->
  match st with Eager.SCatch _ | Eager.SFinally _ => False | _ => True end ->
  Eager.apply st this s = (Return (Eager.new_Pieper (Rejected e)), s).
Proof.
  intros H Hst.
  destruct st; simpl in Hst; try contradiction; simpl;
    unfold Eager.map, Eager.if_, Eager.ifElse, Eager.tap, Eager.log,
      Eager.tap, Eager.assert; rewrite H; reflexivity.
Qed.

End ShortCircuit.

(** A chain whose root throws, followed by three steps. *)
Lemma Lazy_failure_short_circuits_witness :
  Lazy.run
    (Lazy.chain (Lazy.from (JS.call Examples.boom))
       [Lazy.SMap (JS.call Examples.times10);
        Lazy.STap (JS.call Examples.noop);
        Lazy.SAssert (JS.call Examples.gt20) (JS.VStr "too small")])
    Examples.s0
  = Lazy.run (Lazy.from (JS.call Examples.boom)) Examples.s0.
Proof.
  apply (Lazy_failure_short_circuits (Lazy.from (JS.call Examples.boom)) Examples.s0);
    reflexivity.
Defined.

(* ===================================================================== *)
(** * Composition of [map] *)
(* ===================================================================== *)

Section MapComposition.
Import JS.
Local Open Scope js_scope.
Context {W : Type}.


End MapComposition.



(** The same with [f = x => ({ then(resolve) { resolve(x + 1) } })], whose
    result is a thenable that is not a promise. *)
Example map_composition_fails_for_a_thenable :
  fst (Lazy.run (Lazy.map (JS.call Examples.is_number)
                   (Lazy.map (JS.call Examples.plus1_thenable) (Lazy.of_ (JS.VNum 1))))
         Examples.s0)
  = JS.Return (JS.Fulfilled (JS.VBool true))
  /\
  fst (Lazy.run (Lazy.map (JS.compose (JS.call Examples.is_number)
                                      (JS.call Examples.plus1_thenable))
                   (Lazy.of_ (JS.VNum 1)))
         Examples.s0)
  = JS.Return (JS.Fulfilled (JS.VBool false)).
Proof. split; reflexivity. Qed.

(* ===================================================================== *)
(** * [if] and [ifElse] *)
(* ===================================================================== *)

Section Conditional.
Import JS.
Local Open Scope js_scope.
Context {W : Type}.

(** C10.  [p.if(c, f)] runs as [p.ifElse(c, f, elseFn)] for every [elseFn]
    that returns its argument and does nothing else, in both classes: same
    outcome and same final state from every state. *)
Theorem if_is_ifElse_with_identity (condition thenFn elseFn : callback W) :
  (forall x s, elseFn x s = (Return x, s)) ->
  (forall (this : Lazy.Pieper W) (s : state W),
      Lazy.run (Lazy.if_ condition thenFn this) s
      = Lazy.run (Lazy.ifElse condition thenFn elseFn this) s)
  /\
  (forall (this : Eager.Pieper) (s : state W),
      Eager.if_ condition thenFn this s
      = Eager.ifElse condition thenFn elseFn this s).
Proof.
  intros Hid; split; intros this s.
  - unfold Lazy.run, Lazy.if_, Lazy.ifElse; simpl. unfold_js.
    destruct (Lazy.thunk this s) as [[[v | e] | e] s1]; try reflexivity.
    destruct (condition v s1) as [[c | e] s2]; try reflexivity.
    destruct (settle c) as [b | e]; try reflexivity.
    destruct (truthy b); try reflexivity.
    now rewrite Hid.
  - unfold Eager.if_, Eager.ifElse. unfold_js.
    destruct (Eager.value this) as [v | e]; try reflexivity.
    destruct (condition v s) as [[c | e] s2]; try reflexivity.
    destruct (settle (VPromise (settle c))) as [b | e]; try reflexivity.
    destruct (truthy b); try reflexivity.
    now rewrite Hid.
Qed.

(** The lazy [if] does what the specification says of it, on a chain whose
    value is not itself a promise. *)
Lemma Lazy_if_refines_spec (condition thenFn : callback W) (this : Lazy.Pieper W) s :
  (forall v s1, Lazy.run this s = (Return (Fulfilled v), s1) -> is_thenable v = false) ->
  Lazy.run (Lazy.if_ condition thenFn this) s
  = Lazy.run (Lazy.if_spec condition thenFn this) s.
Proof.
  unfold Lazy.run, Lazy.if_, Lazy.if_spec, Lazy.ifElse, Lazy.map, Lazy.of_; simpl.
  intros Hv. unfold_js.
  destruct (Lazy.thunk this s) as [[[v | e] | e] s1]; try reflexivity.
  specialize (Hv v s1 eq_refl).
  destruct (condition v s1) as [[c | e] s2]; try reflexivity.
  destruct (settle c) as [b | e]; try reflexivity.
  rewrite (settle_plain v Hv).
  destruct (truthy b).
  - destruct (thenFn v s2) as [[r | e] s3]; [ | reflexivity].
    now rewrite settle_settled.
  - now rewrite settle_settled, (settle_plain v Hv).
Qed.

End Conditional.

(** [of(5).map(x => x + 2).if(x => x > 5, x => x * 10)] against the same
    chain written with [ifElse] and [x => x]. *)
Lemma if_is_ifElse_with_identity_witness :
  Lazy.run (Lazy.if_ (JS.call Examples.gt5) (JS.call Examples.times10)
              (Lazy.map (JS.call Examples.plus2) (Lazy.of_ (JS.VNum 5))))
    Examples.s0
  = Lazy.run (Lazy.ifElse (JS.call Examples.gt5) (JS.call Examples.times10)
                (fun value => JS.ret value)
                (Lazy.map (JS.call Examples.plus2) (Lazy.of_ (JS.VNum 5))))
      Examples.s0.
Proof.
  apply (if_is_ifElse_with_identity (JS.call Examples.gt5)
           (JS.call Examples.times10) (fun value => JS.ret value)).
  reflexivity.
Defined.

Example Lazy_if_example :
  Lazy.run (Lazy.if_ (JS.call Examples.gt5) (JS.call Examples.times10)
              (Lazy.map (JS.call Examples.plus2) (Lazy.of_ (JS.VNum 5))))
    Examples.s0
  = (JS.Return (JS.Fulfilled (JS.VNum 70)),
     JS.mkState tt [JS.Invoked "x => x + 2" (JS.VNum 5);
                    JS.Invoked "x => x > 5" (JS.VNum 7);
                    JS.Invoked "x => x * 10" (JS.VNum 7)]).
Proof. reflexivity. Qed.

(* ===================================================================== *)
(** * When the functions of a chain are called *)
(* ===================================================================== *)

Section Deferral.
Import JS.
Local Open Scope js_scope.
Context {W : Type}.

Lemma Lazy_chaining_returns (steps : list (Lazy.step W)) :
  forall (this : Lazy.Pieper W) (s : state W),
    Lazy.chaining this steps s = (Return (Lazy.chain this steps), s).
Proof.
  induction steps as [ | st rest IH]; intros this s; [reflexivity | ].
  simpl. rewrite bind_ret. apply IH.
Qed.

(** Every chaining method composes the receiver's thunk with its own
    step. *)
Lemma Lazy_step_executes (st : Lazy.step W) (this : Lazy.Pieper W) (s : state W) :
  Lazy.thunk (Lazy.apply st this) s
  = bind (Lazy.thunk this) (Bridge.execute_step st) s.
Proof.
  unfold bind.
  destruct st; simpl; unfold bind;
    destruct (Lazy.thunk this s) as [[[v | x] | x] s1]; try reflexivity;
    unfold Bridge.execute_step, Lazy.run; unfold_js;
    repeat (cbv beta iota delta [negb error_of];
            try change (settle VUndefined) with (@Fulfilled val val VUndefined);
            cbv beta iota; rewrite ?settle_settled;
            first [ reflexivity
                  | match goal with
                    | |- context [?f ?a ?t] =>
                        is_var f;
                        lazymatch type of (f a t) with
                        | (completion _ * state _)%type =>
                            destruct (f a t) as [[? | ?] ?]
                        end
                    | |- context [Lazy.thunk ?q ?t] =>
                        destruct (Lazy.thunk q t) as [[? | ?] ?]
                    | |- context [truthy ?b] => is_var b; destruct (truthy b)
                    | |- context [settle ?c] => is_var c; destruct (settle c)
                    end ]).
Qed.

Lemma Lazy_chain_executes (steps : list (Lazy.step W)) :
  forall (this : Lazy.Pieper W) (s : state W),
    Lazy.thunk (Lazy.chain this steps) s
    = bind (Lazy.thunk this) (Bridge.execute_steps steps) s.
Proof.
  induction steps as [ | st rest IH]; intros this s.
  - unfold bind; simpl. destruct (Lazy.thunk this s) as [[p | e] s1]; reflexivity.
  - change (Lazy.chain this (st :: rest))
      with (Lazy.chain (Lazy.apply st this) rest).
    rewrite IH. unfold bind at 1. rewrite Lazy_step_executes.
    unfold bind; simpl. destruct (Lazy.thunk this s) as [[p | e] s1]; reflexivity.
Qed.

(** The three terminal operations call the thunk, once, and make of its
    outcome what [safely] and [forgetting] say. *)
Lemma Lazy_terminal_operations_run_the_thunk (this : Lazy.Pieper W) (s : state W) :
  Lazy.runSafe this s = Bridge.safely (Lazy.run this s)
  /\ Lazy.runAndForget this s = Bridge.forgetting (Lazy.run this s).
Proof.
  unfold Lazy.runSafe, Lazy.runAndForget, Lazy.run, Bridge.safely,
    Bridge.forgetting. unfold_js.
  destruct (Lazy.thunk this s) as [[[v | e] | e] s1]; simpl; split;
    try reflexivity.
  destruct (settle v); reflexivity.
Qed.

Lemma Lazy_terminal_operations_execute
    (r : Lazy.root W) (steps : list (Lazy.step W)) (s : state W) :
  Lazy.run (Lazy.chain (Lazy.start r) steps) s = Bridge.execute r steps s
  /\ Lazy.runSafe (Lazy.chain (Lazy.start r) steps) s
     = Bridge.safely (Bridge.execute r steps s)
  /\ Lazy.runAndForget (Lazy.chain (Lazy.start r) steps) s
     = Bridge.forgetting (Bridge.execute r steps s).
Proof.
  assert (E : Lazy.run (Lazy.chain (Lazy.start r) steps) s
              = Bridge.execute r steps s).
  { unfold Lazy.run, Bridge.execute. rewrite Lazy_chain_executes.
    destruct r; reflexivity. }
  destruct (Lazy_terminal_operations_run_the_thunk
              (Lazy.chain (Lazy.start r) steps) s) as [Hs Hf].
  rewrite Hs, Hf, E. repeat split.
Qed.

(** C4.  In the lazy class, building a chain from [of] or [from] and any
    steps returns the pipeline and leaves the state as it was: no function
    of the caller has been called and nothing was written.  The functions
    run when a terminal operation is called on that pipeline: [run()]
    executes the root and then the steps in their order, each on the promise
    that the steps before it gave; [runSafe()] and [runAndForget()] do the
    same execution and wrap or drop its outcome.  In the eager class
    [from(fn)] calls [fn] while the pipeline is built, and a step chained to
    a fulfilled value calls its function without any terminal operation (on
    the platform, in the job that the chaining call queues). *)
Theorem construction_defers_in_the_lazy_class_only :
  (forall (r : Lazy.root W) (steps : list (Lazy.step W)) (s : state W),
      Lazy.construct r steps s
      = (Return (Lazy.chain (Lazy.start r) steps), s))
  /\
  (forall (r : Lazy.root W) (steps : list (Lazy.step W)) (s : state W),
      (p <- Lazy.construct r steps ;; Lazy.run p) s = Bridge.execute r steps s
      /\ (p <- Lazy.construct r steps ;; Lazy.runSafe p) s
         = Bridge.safely (Bridge.execute r steps s)
      /\ (p <- Lazy.construct r steps ;; Lazy.runAndForget p) s
         = Bridge.forgetting (Bridge.execute r steps s))
  /\
  (forall (fn : ufun W val) (s : state W),
      trace (snd (Eager.from (call fn) s))
      = trace s ++ [Invoked (name fn) VUndefined])
  /\
  (forall (fn : ufun W val) (v : val) (s : state W),
      trace (snd (Eager.map (call fn) (Eager.new_Pieper (Fulfilled v)) s))
      = trace s ++ [Invoked (name fn) v]).
Proof.
  assert (Hc : forall (r : Lazy.root W) steps s,
             Lazy.construct r steps s
             = (Return (Lazy.chain (Lazy.start r) steps), s)).
  { intros r steps s. unfold Lazy.construct. rewrite bind_ret.
    apply Lazy_chaining_returns. }
  split; [exact Hc | split; [ | split]].
  - intros r steps s.
    rewrite !(bind_return _ _ _ _ _ (Hc r steps s)).
    apply Lazy_terminal_operations_execute.
  - intros fn s. unfold Eager.from. unfold_js.
    destruct (body fn VUndefined (world s)) as [[r | e] w']; reflexivity.
  - intros fn v s. unfold Eager.map. unfold_js. simpl.
    destruct (body fn v (world s)) as [[r | e] w']; reflexivity.
Qed.

End Deferral.

(** In the eager class, building [from(() => ++n)] calls the producer: the
    counter is 1 and the call is recorded when [from] returns, before any
    terminal operation. *)
Lemma Eager_construction_runs_the_producer :
  snd (Eager.construct (Eager.RFrom (JS.call Examples.next)) [] Examples.c0)
  = JS.mkState 1%Z [JS.Invoked "() => ++n" JS.VUndefined].
Proof. reflexivity. Qed.

(** The same expression in the lazy class calls nothing. *)
Example Lazy_construction_runs_nothing :
  snd (Lazy.construct (Lazy.RFrom (JS.call Examples.next))
         [Lazy.SMap (JS.call Examples.times10)] Examples.c0)
  = Examples.c0.
Proof. reflexivity. Qed.

(* ===================================================================== *)
(** * Running a pipeline more than once *)
(* ===================================================================== *)

Section Replay.
Import JS.
Local Open Scope js_scope.
Context {W : Type}.

Lemma replays_ret {A} (a : A) : replays (W:=W) (ret a).
Proof. intros w t. simpl. now rewrite app_nil_r. Qed.

Lemma replays_throw {A} (e : val) : replays (W:=W) (A:=A) (throw e).
Proof. intros w t. simpl. now rewrite app_nil_r. Qed.

Lemma replays_emit (ev : event) : replays (W:=W) (emit ev).
Proof. intros w t. reflexivity. Qed.

Lemma replays_call {R} (f : ufun W R) (x : val) : replays (call f x).
Proof.
  intros w t. unfold call; simpl.
  destruct (body f x w) as [c w']. reflexivity.
Qed.

(** Sequencing, where the continuation has to replay on the values that the
    first part can return. *)
Lemma replays_bind {A B} (m : X W A) (k : A -> X W B) :
  replays m ->
  (forall a s s', m s = (Return a, s') -> replays (k a)) ->
  replays (bind m k).
Proof.
  intros Hm Hk w t. unfold bind. rewrite (Hm w t).
  destruct (m (mkState w [])) as [[a | e] [w1 t1]] eqn:E; simpl; [ | reflexivity].
  pose proof (Hk a _ _ E) as Hka.
  rewrite (Hka w1 (t ++ t1)), (Hka w1 t1).
  destruct (k a (mkState w1 [])) as [r [w2 t2]]; simpl.
  now rewrite app_assoc.
Qed.

Lemma replays_try_catch {A} (m : X W A) (h : val -> X W A) :
  replays m -> (forall e, replays (h e)) -> replays (try_catch m h).
Proof.
  intros Hm Hh w t. unfold try_catch. rewrite (Hm w t).
  destruct (m (mkState w [])) as [[a | e] [w1 t1]]; simpl; [reflexivity | ].
  rewrite (Hh e w1 (t ++ t1)), (Hh e w1 t1).
  destruct (h e (mkState w1 [])) as [r [w2 t2]]; simpl.
  now rewrite app_assoc.
Qed.

Lemma replays_settling (job : X W val) : replays job -> replays (settling job).
Proof.
  intros Hj w t. unfold settling. rewrite (Hj w t).
  destruct (job (mkState w [])) as [[r | e] [w1 t1]]; reflexivity.
Qed.

Lemma replays_as_value (m : X W (promise val)) : replays m -> replays (as_value m).
Proof.
  intros Hm w t. unfold as_value. rewrite (Hm w t).
  destruct (m (mkState w [])) as [[r | e] [w1 t1]]; reflexivity.
Qed.

Lemma replays_await (v : val) : replays (W:=W) (await v).
Proof. unfold await. destruct (settle v); [apply replays_ret | apply replays_throw]. Qed.

Lemma replays_console_log (args : list val) : replays (W:=W) (console_log args).
Proof.
  apply replays_bind; [apply replays_emit | intros; apply replays_ret].
Qed.

Lemma replays_console_error (args : list val) : replays (W:=W) (console_error args).
Proof.
  apply replays_bind; [apply replays_emit | intros; apply replays_ret].
Qed.

Lemma replays_then (p : promise val) (fn : callback W) :
  (forall x, replays (fn x)) -> replays (then_ p fn).
Proof.
  intros Hfn. destruct p as [v | e]; simpl;
    [now apply replays_settling | apply replays_ret].
Qed.

Lemma replays_catch (p : promise val) (fn : callback W) :
  (forall x, replays (fn x)) -> replays (catch_ p fn).
Proof.
  intros Hfn. destruct p as [v | e]; simpl;
    [apply replays_ret | now apply replays_settling].
Qed.

Lemma replays_finally (p : promise val) (fn : callback W) :
  (forall x, replays (fn x)) -> replays (finally_ p fn).
Proof.
  intros Hfn w t. unfold finally_. rewrite (Hfn VUndefined w t).
  destruct (fn VUndefined (mkState w [])) as [[r | e] [w1 t1]]; simpl;
    [destruct (settle r) | ]; reflexivity.
Qed.

Create HintDb replay.
#[local] Hint Resolve replays_ret replays_throw replays_call replays_await
  replays_console_log replays_console_error replays_settling replays_as_value
  replays_then replays_catch replays_finally : replay.

(** Every chaining method of the lazy class builds the thunk
    "run the receiver's thunk, then go on with its promise". *)
Lemma Lazy_step_continues (st : Lazy.step W) (this : Lazy.Pieper W) :
  exists k,
    Lazy.thunk (Lazy.apply st this) = bind (Lazy.thunk this) k
    /\ (Lazy.replaying_step st -> forall p, replays (k p)).
Proof.
  destruct st; simpl; eexists; (split; [reflexivity | ]); intros H p;
    simpl in H; cbv beta.
  - auto with replay.
  - apply replays_then. intros x. destruct (H x) as [Hfn Hq].
    apply replays_bind; [exact Hfn | ].
    intros q s s' E. apply replays_as_value. exact (Hq _ _ _ E).
  - apply replays_then. intros x. destruct (H x) as [Hc Ht].
    apply replays_as_value, replays_settling.
    apply replays_bind; [exact Hc | intros c _ _ _].
    apply replays_bind; [apply replays_await | intros b _ _ _].
    destruct (truthy b); [exact Ht | apply replays_ret].
  - apply replays_then. intros x. destruct (H x) as [Hc [Ht He]].
    apply replays_as_value, replays_settling.
    apply replays_bind; [exact Hc | intros c _ _ _].
    apply replays_bind; [apply replays_await | intros b _ _ _].
    destruct (truthy b); assumption.
  - apply replays_then. intros x.
    apply replays_as_value, replays_settling.
    apply replays_bind; [apply H | intros r _ _ _].
    apply replays_bind; [apply replays_await | intros; apply replays_ret].
  - apply replays_then. intros x.
    apply replays_as_value, replays_settling.
    apply replays_bind;
      [destruct (truthy message); apply replays_console_log | intros r _ _ _].
    apply replays_bind; [apply replays_await | intros; apply replays_ret].
  - auto with replay.
  - auto with replay.
  - apply replays_then. intros x.
    apply replays_as_value, replays_settling.
    apply replays_bind; [apply H | intros c _ _ _].
    apply replays_bind; [apply replays_await | intros b _ _ _].
    destruct (negb (truthy b)); [apply replays_throw | apply replays_ret].
Qed.

Lemma Lazy_start_replays (r : Lazy.root W) :
  Lazy.replaying_root r -> replays (Lazy.thunk (Lazy.start r)).
Proof.
  destruct r as [v | fn]; simpl; intros H; [apply replays_ret | ].
  apply replays_bind; [exact H | intros; apply replays_ret].
Qed.

Lemma Lazy_chain_replays (steps : list (Lazy.step W)) :
  Forall Lazy.replaying_step steps ->
  forall this : Lazy.Pieper W,
    replays (Lazy.thunk this) -> replays (Lazy.thunk (Lazy.chain this steps)).
Proof.
  induction 1 as [ | st rest Hst _ IH]; intros this Hthis; [exact Hthis | ].
  change (Lazy.chain this (st :: rest)) with (Lazy.chain (Lazy.apply st this) rest).
  apply IH. destruct (Lazy_step_continues st this) as [k [-> Hk]].
  apply replays_bind; [exact Hthis | intros p _ _ _; now apply Hk].
Qed.

(** Each invocation starts with a call of the root producer. *)
Lemma Lazy_run_calls_the_root (f : ufun W val) (steps : list (Lazy.step W)) :
  Forall Lazy.replaying_step steps ->
  forall s, exists evs,
    trace (snd (Lazy.run (Lazy.chain (Lazy.from (call f)) steps) s))
    = trace s ++ Invoked (name f) VUndefined :: evs.
Proof.
  intros Hsteps. unfold Lazy.run.
  assert (Hroot : replays (Lazy.thunk (Lazy.from (call f)))
                  /\ forall s, exists evs,
                       trace (snd (Lazy.thunk (Lazy.from (call f)) s))
                       = trace s ++ Invoked (name f) VUndefined :: evs).
  { split.
    - apply (Lazy_start_replays (Lazy.RFrom (call f))). simpl. apply replays_call.
    - intros s. exists []. simpl. unfold_js.
      destruct (body f VUndefined (world s)) as [[r | e] w']; reflexivity. }
  revert Hroot. generalize (Lazy.from (call f)).
  induction Hsteps as [ | st rest Hst _ IH]; intros this [Hrep Hcall]; [exact Hcall | ].
  change (Lazy.chain this (st :: rest)) with (Lazy.chain (Lazy.apply st this) rest).
  apply IH. destruct (Lazy_step_continues st this) as [k [Ek Hk]].
  split.
  - rewrite Ek. apply replays_bind; [exact Hrep | intros p _ _ _; now apply Hk].
  - intros s. rewrite Ek. unfold bind.
    destruct (Hcall s) as [evs Hevs].
    destruct (Lazy.thunk this s) as [[q | e] [w1 t1]]; simpl in *; [ | eauto].
    rewrite (Hk Hst q w1 t1).
    destruct (k q (mkState w1 [])) as [o [w2 t2]]; simpl.
    exists (evs ++ t2). rewrite Hevs, <- app_assoc. reflexivity.
Qed.

(** [runSafe()] and [runAndForget()] keep the events of the run; the latter
    may add its line at the end. *)
Lemma Lazy_terminal_operations_keep_the_events (this : Lazy.Pieper W) (s : state W) :
  trace (snd (Lazy.runSafe this s)) = trace (snd (Lazy.run this s))
  /\ exists tail,
       trace (snd (Lazy.runAndForget this s))
       = trace (snd (Lazy.run this s)) ++ tail.
Proof.
  destruct (Lazy_terminal_operations_run_the_thunk this s) as [-> ->].
  destruct (Lazy.run this s) as [[[v | e] | e] s1]; simpl; split;
    try reflexivity; eexists; try reflexivity; now rewrite app_nil_r.
Qed.

(** C7.  In the lazy class every terminal operation on a chain of caller's
    functions runs the whole chain again.  Whatever the state, so also after
    earlier invocations, [run()] executes the root and then the steps in
    their order, each on the promise that the steps before it gave;
    [runSafe()] and [runAndForget()] do the same execution and wrap or drop
    its outcome; two [run()]s in a row are two such executions.  What an
    invocation does is what an invocation from the same world with no earlier
    event does, and its events are added to those recorded before, so that
    earlier invocations matter only through the world they left; and every
    invocation of a terminal operation on a chain rooted in [from(f)] begins
    with a new call of [f].  In the eager class [run()] hands back the stored
    promise and [runSafe()] wraps it, and neither calls anything or changes
    the state. *)
Theorem terminal_operations_rerun_in_the_lazy_class_only
    (r : Lazy.root W) (f : ufun W val) (steps : list (Lazy.step W)) :
  Lazy.replaying_root r ->
  Forall Lazy.replaying_step steps ->
  (replays (Lazy.run (Lazy.chain (Lazy.start r) steps))
   /\ replays (Lazy.runSafe (Lazy.chain (Lazy.start r) steps))
   /\ replays (Lazy.runAndForget (Lazy.chain (Lazy.start r) steps)))
  /\
  (forall s : state W, exists evs,
      trace (snd (Lazy.run (Lazy.chain (Lazy.from (call f)) steps) s))
      = trace s ++ Invoked (name f) VUndefined :: evs)
  /\
  (forall s : state W,
      (exists evs,
          trace (snd (Lazy.runSafe (Lazy.chain (Lazy.from (call f)) steps) s))
          = trace s ++ Invoked (name f) VUndefined :: evs)
      /\ (exists evs,
             trace (snd (Lazy.runAndForget (Lazy.chain (Lazy.from (call f)) steps) s))
             = trace s ++ Invoked (name f) VUndefined :: evs))
  /\
  (forall s : state W,
      Lazy.run (Lazy.chain (Lazy.start r) steps) s = Bridge.execute r steps s
      /\ Lazy.runSafe (Lazy.chain (Lazy.start r) steps) s
         = Bridge.safely (Bridge.execute r steps s)
      /\ Lazy.runAndForget (Lazy.chain (Lazy.start r) steps) s
         = Bridge.forgetting (Bridge.execute r steps s))
  /\
  (forall s : state W,
      (o1 <- Lazy.run (Lazy.chain (Lazy.start r) steps) ;;
       o2 <- Lazy.run (Lazy.chain (Lazy.start r) steps) ;;
       ret (o1, o2)) s
      = (o1 <- Bridge.execute r steps ;;
         o2 <- Bridge.execute r steps ;;
         ret (o1, o2)) s)
  /\
  (forall (this : Eager.Pieper) (s : state W),
      Eager.run this s = (Return (Eager.value this), s)
      /\ snd (Eager.runSafe this s) = s).
Proof.
  intros Hr Hsteps.
  pose proof (Lazy_chain_replays steps Hsteps _ (Lazy_start_replays r Hr)) as Hp.
  pose proof (Lazy_terminal_operations_execute r steps) as Hx.
  set (p := Lazy.chain (Lazy.start r) steps) in *.
  split; [split; [exact Hp | split] | split; [ | split; [ | split; [ | split]]]].
  - unfold Lazy.runSafe, async. apply replays_settling, replays_try_catch.
    + apply replays_bind; [exact Hp | intros q _ _ _].
      apply replays_bind; [apply replays_await | intros; apply replays_ret].
    + intros e; apply replays_ret.
  - unfold Lazy.runAndForget.
    apply replays_bind; [exact Hp | intros q _ _ _].
    apply replays_bind; [ | intros; apply replays_ret].
    apply replays_catch. intros e; apply replays_console_error.
  - now apply Lazy_run_calls_the_root.
  - intros s.
    destruct (Lazy_run_calls_the_root f steps Hsteps s) as [evs Hevs].
    destruct (Lazy_terminal_operations_keep_the_events
                (Lazy.chain (Lazy.from (call f)) steps) s) as [Hs [tail Hf]].
    split.
    + exists evs. now rewrite Hs.
    + exists (evs ++ tail). rewrite Hf, Hevs, <- app_assoc. reflexivity.
  - exact Hx.
  - intros s. unfold bind.
    destruct (Hx s) as [-> _].
    destruct (Bridge.execute r steps s) as [[o1 | e] s1]; [ | reflexivity].
    destruct (Hx s1) as [-> _]. reflexivity.
  - intros this s; split; [reflexivity | ].
    unfold Eager.runSafe. unfold_js.
    destruct (Eager.value this) as [v | e]; simpl;
      [destruct (settle v) | ]; reflexivity.
Qed.

End Replay.

(** [from(() => ++n).map(x => x * 10)], run by any terminal operation. *)
Lemma terminal_operations_rerun_witness :
  JS.replays (Lazy.run (Lazy.chain (Lazy.start (Lazy.RFrom (JS.call Examples.next)))
                          [Lazy.SMap (JS.call Examples.times10)])).
Proof.
  apply (terminal_operations_rerun_in_the_lazy_class_only
           (Lazy.RFrom (JS.call Examples.next)) Examples.next
           [Lazy.SMap (JS.call Examples.times10)]).
  - simpl. apply replays_call.
  - apply Forall_cons; [ | apply Forall_nil].
    simpl. intros x. apply replays_call.
Defined.

(** Two [run()]s of the lazy [from(() => ++n)]: the producer is called
    twice, and the results are 1 and 2. *)
Example Lazy_runs_twice :
  JS.bind (Lazy.run (Lazy.from (JS.call Examples.next))) (fun r1 =>
  JS.bind (Lazy.run (Lazy.from (JS.call Examples.next))) (fun r2 =>
  JS.ret (r1, r2))) Examples.c0
  = (JS.Return (JS.Fulfilled (JS.VNum 1), JS.Fulfilled (JS.VNum 2)),
     JS.mkState 2%Z [JS.Invoked "() => ++n" JS.VUndefined;
                     JS.Invoked "() => ++n" JS.VUndefined]).
Proof. reflexivity. Qed.

(** Two [run()]s of the eager [from(() => ++n)]: the producer was called
    once, when the pipeline was built, and both results are 1. *)
Lemma Eager_runs_once :
  JS.bind (Eager.construct (Eager.RFrom (JS.call Examples.next)) []) (fun p =>
  JS.bind (Eager.run p) (fun r1 =>
  JS.bind (Eager.run p) (fun r2 =>
  JS.ret (r1, r2)))) Examples.c0
  = (JS.Return (JS.Fulfilled (JS.VNum 1), JS.Fulfilled (JS.VNum 1)),
     JS.mkState 1%Z [JS.Invoked "() => ++n" JS.VUndefined]).
Proof. reflexivity. Qed.

(* ===================================================================== *)
(** * Side effects: [tap] and [log] *)
(* ===================================================================== *)

Section SideEffects.
Import JS.
Local Open Scope js_scope.
Context {W : Type}.

(** X1.  [tap(fn)] on a chain that carries [v]: when [fn(v)] returns, and
    what it returns is not a rejected promise, the new pipeline carries [v]
    again, whatever [fn] returned; the state is the one [fn] left.  Both
    classes. *)
Theorem tap_passes_the_value_through
    (fn : callback W) (this : Lazy.Pieper W) s v s1 r a s2 :
  Lazy.run this s = (Return (Fulfilled v), s1) ->
  is_thenable v = false ->
  fn v s1 = (Return r, s2) ->
  settle r = Fulfilled a ->
  Lazy.run (Lazy.tap fn this) s = (Return (Fulfilled v), s2)
  /\ Eager.tap fn (Eager.new_Pieper (Fulfilled v)) s1
     = (Return (Eager.new_Pieper (Fulfilled v)), s2).
Proof.
  intros H Hv Hfn Hr. split.
  - unfold Lazy.run, Lazy.tap in *; simpl. unfold_js.
    rewrite H, Hfn, Hr. rewrite (settle_plain v Hv); simpl.
    now rewrite (settle_plain v Hv).
  - unfold Eager.tap; simpl. unfold_js.
    rewrite Hfn, settle_settled, Hr. rewrite (settle_plain v Hv); simpl.
    now rewrite (settle_plain v Hv).
Qed.

(** X2.  [tap(fn)] on a chain that carries [v]: when [fn(v)] throws [e], or
    returns a promise rejected with [e], the new pipeline fails with [e] and
    [v] is lost.  Both classes. *)
Theorem tap_failure_aborts_the_chain
    (fn : callback W) (this : Lazy.Pieper W) s v s1 e s2 :
  Lazy.run this s = (Return (Fulfilled v), s1) ->
  (fn v s1 = (Throw e, s2)
   \/ exists r, fn v s1 = (Return r, s2) /\ settle r = Rejected e) ->
  Lazy.run (Lazy.tap fn this) s = (Return (Rejected e), s2)
  /\ Eager.tap fn (Eager.new_Pieper (Fulfilled v)) s1
     = (Return (Eager.new_Pieper (Rejected e)), s2).
Proof.
  intros H [Hfn | [r [Hfn Hr]]]; split;
    unfold Lazy.run, Lazy.tap, Eager.tap in *; simpl; unfold_js;
    rewrite ?H, Hfn; try reflexivity.
  - now rewrite Hr.
  - now rewrite settle_settled, Hr.
Qed.

(** X3.  [log(message)] on a chain that carries [v] writes one line to the
    console and carries [v] on; it calls nothing and does not fail.  The line
    is [message, v] when [message] is truthy and [v] alone otherwise, so that
    the empty string counts as no message: [log("")] runs as [log()]. *)
Theorem log_writes_one_line
    (message : val) (this : Lazy.Pieper W) s v s1 :
  Lazy.run this s = (Return (Fulfilled v), s1) ->
  is_thenable v = false ->
  Lazy.run (Lazy.log message this) s
  = (Return (Fulfilled v),
     mkState (world s1)
       (trace s1 ++ [ConsoleLog (if truthy message then [message; v] else [v])]))
  /\ Lazy.run (Lazy.log (VStr "") this) s = Lazy.run (Lazy.log VUndefined this) s.
Proof.
  intros H Hv. split; [ | reflexivity].
  unfold Lazy.run, Lazy.log, Lazy.tap in *; simpl. unfold_js. rewrite H.
  destruct (truthy message); simpl; rewrite (settle_plain v Hv); simpl;
    now rewrite (settle_plain v Hv).
Qed.

End SideEffects.

Lemma tap_passes_witness :
  Lazy.run (Lazy.tap (JS.call Examples.times10) (Lazy.of_ (JS.VNum 7))) Examples.s0
  = (JS.Return (JS.Fulfilled (JS.VNum 7)),
     JS.mkState tt [JS.Invoked "x => x * 10" (JS.VNum 7)]).
Proof.
  apply (tap_passes_the_value_through (JS.call Examples.times10)
           (Lazy.of_ (JS.VNum 7)) Examples.s0 (JS.VNum 7) Examples.s0
           (JS.VNum 70) (JS.VNum 70)); reflexivity.
Defined.

Lemma tap_failure_witness :
  Lazy.run (Lazy.tap (JS.call Examples.boom) (Lazy.of_ (JS.VNum 7))) Examples.s0
  = (JS.Return (JS.Rejected (JS.VError "boom")),
     JS.mkState tt [JS.Invoked "() => { throw new Error('boom') }" (JS.VNum 7)]).
Proof.
  apply (tap_failure_aborts_the_chain (JS.call Examples.boom)
           (Lazy.of_ (JS.VNum 7)) Examples.s0 (JS.VNum 7) Examples.s0).
  - reflexivity.
  - left. reflexivity.
Defined.

Lemma log_witness :
  Lazy.run (Lazy.log (JS.VStr "After .if:") (Lazy.of_ (JS.VNum 70))) Examples.s0
  = (JS.Return (JS.Fulfilled (JS.VNum 70)),
     JS.mkState tt [JS.ConsoleLog [JS.VStr "After .if:"; JS.VNum 70]]).
Proof.
  apply (log_writes_one_line (JS.VStr "After .if:") (Lazy.of_ (JS.VNum 70))
           Examples.s0 (JS.VNum 70) Examples.s0); reflexivity.
Defined.

(* ===================================================================== *)
(** * [flatMap], [runAndForget] and synchronous throws *)
(* ===================================================================== *)

Section FlatMap.
Import JS.
Local Open Scope js_scope.
Context {W : Type}.

(** X4.  [flatMap(fn)] on a chain that carries [v], where [fn(v)] returns the
    pipeline [q]: the outcome is that of running [q].  The promise that [q]
    gives is adopted, not wrapped, and a synchronous throw of [q]'s run
    becomes a rejection, because [q] is run inside the callback of
    [then]. *)
Theorem flatMap_adopts_the_inner_run
    (fn : val -> X W (Lazy.Pieper W)) (this : Lazy.Pieper W) s v s1 q s2 :
  Lazy.run this s = (Return (Fulfilled v), s1) ->
  fn v s1 = (Return q, s2) ->
  Lazy.run (Lazy.flatMap fn this) s
  = match Lazy.run q s2 with
    | (Return p, s3) => (Return (settle (VPromise p)), s3)
    | (Throw e, s3) => (Return (Rejected e), s3)
    end.
Proof.
  unfold Lazy.run, Lazy.flatMap; simpl. intros H Hfn. unfold_js.
  rewrite H, Hfn. unfold Lazy.run.
  destruct (Lazy.thunk q s2) as [[p | e] s3]; reflexivity.
Qed.

(** X5.  [p.flatMap(x => Pieper.of(g(x)))] runs as [p.map(g)]: same outcome
    and same final state from every state, whether [p] or [g] fail or not. *)
Theorem flatMap_of_is_map (g : callback W) (this : Lazy.Pieper W) (s : state W) :
  Lazy.run (Lazy.flatMap (fun x => r <- g x ;; ret (Lazy.of_ r)) this) s
  = Lazy.run (Lazy.map g this) s.
Proof.
  unfold Lazy.run, Lazy.flatMap, Lazy.map, Lazy.of_; simpl. unfold_js.
  destruct (Lazy.thunk this s) as [[[v | e] | e] s1]; try reflexivity.
  destruct (g v s1) as [[r | e] s2]; [ | reflexivity].
  unfold Lazy.run; cbv beta iota delta [Lazy.thunk].
  now rewrite settle_settled.
Qed.

(** X6.  [runAndForget()] on a chain whose run gives a promise returns
    [undefined] and does not throw.  When the promise is fulfilled nothing
    else happens; when it is rejected with [e], one line is written with
    [console.error]: the text "Pieper failed (runAndForget):" and [e].  Both
    classes. *)
Theorem runAndForget_reports_a_rejection (this : Lazy.Pieper W) s p s1 :
  Lazy.run this s = (Return p, s1) ->
  Lazy.runAndForget this s
  = (Return VUndefined,
     match p with
     | Fulfilled _ => s1
     | Rejected e =>
         mkState (world s1)
           (trace s1 ++ [ConsoleError [VStr "Pieper failed (runAndForget):"; e]])
     end)
  /\ Eager.runAndForget (Eager.new_Pieper p) s1
     = (Return VUndefined,
        match p with
        | Fulfilled _ => s1
        | Rejected e =>
            mkState (world s1)
              (trace s1 ++ [ConsoleError [VStr "Pieper failed (runAndForget):"; e]])
        end).
Proof.
  unfold Lazy.run, Lazy.runAndForget, Eager.runAndForget; simpl. intros H.
  unfold_js. rewrite H. destruct p as [v | e]; split; reflexivity.
Qed.

(** X7.  In the lazy class a synchronous throw of the thunk goes through
    every chaining method, [catch] and [finally] included: whatever steps are
    added, [run()] and [runAndForget()] throw the same value and end in the
    state that the throw left, so none of the steps' functions is called and
    nothing is written. *)
Theorem Lazy_synchronous_throw_passes_every_step
    (this : Lazy.Pieper W) (s : state W) (E : val) (s' : state W) :
  Lazy.run this s = (Throw E, s') ->
  forall steps : list (Lazy.step W),
    Lazy.run (Lazy.chain this steps) s = (Throw E, s')
    /\ Lazy.runAndForget (Lazy.chain this steps) s = (Throw E, s').
Proof.
  intros H steps; revert this H.
  induction steps as [ | st rest IH]; intros this H.
  - split; [exact H | ].
    unfold Lazy.runAndForget. now apply bind_throw.
  - change (Lazy.chain this (st :: rest))
      with (Lazy.chain (Lazy.apply st this) rest).
    apply IH. unfold Lazy.run in *.
    destruct (Lazy_step_continues st this) as [k [-> _]].
    now apply bind_throw.
Qed.

End FlatMap.

(** [of(1).flatMap(x => Pieper.from(() => { throw new Error("boom") }))]:
    the throw of the inner pipeline is a rejection of the outer one. *)
Lemma flatMap_adopts_witness :
  Lazy.run (Lazy.flatMap (fun _ => JS.ret (Lazy.from (JS.call Examples.boom)))
              (Lazy.of_ (JS.VNum 1)))
    Examples.s0
  = (JS.Return (JS.Rejected (JS.VError "boom")),
     JS.after_call "() => { throw new Error('boom') }" Examples.s0).
Proof.
  apply (flatMap_adopts_the_inner_run
           (fun _ => JS.ret (Lazy.from (JS.call Examples.boom)))
           (Lazy.of_ (JS.VNum 1)) Examples.s0 (JS.VNum 1) Examples.s0
           (Lazy.from (JS.call Examples.boom)) Examples.s0); reflexivity.
Defined.

(** [of(Promise.reject(new Error("boom"))).runAndForget()] *)
Lemma runAndForget_witness :
  Lazy.runAndForget (Lazy.of_ (JS.VPromise (JS.Rejected (JS.VError "boom"))))
    Examples.s0
  = (JS.Return JS.VUndefined,
     JS.mkState tt [JS.ConsoleError [JS.VStr "Pieper failed (runAndForget):";
                                     JS.VError "boom"]]).
Proof.
  apply (runAndForget_reports_a_rejection
           (Lazy.of_ (JS.VPromise (JS.Rejected (JS.VError "boom"))))
           Examples.s0 (JS.Rejected (JS.VError "boom")) Examples.s0).
  reflexivity.
Defined.

(** [from(() => { throw new Error("boom") })] followed by [map], [catch]
    and [finally]. *)
Lemma Lazy_synchronous_throw_witness :
  Lazy.run (Lazy.chain (Lazy.from (JS.call Examples.boom))
              [Lazy.SMap (JS.call Examples.times10);
               Lazy.SCatch (JS.call Examples.zero);
               Lazy.SFinally (JS.call Examples.noop)])
    Examples.s0
  = (JS.Throw (JS.VError "boom"),
     JS.after_call "() => { throw new Error('boom') }" Examples.s0).
Proof.
  apply (Lazy_synchronous_throw_passes_every_step
           (Lazy.from (JS.call Examples.boom)) Examples.s0).
  reflexivity.
Defined.

(* ===================================================================== *)
(** * Branches, assertions and finalizers *)
(* ===================================================================== *)

Section Branches.
Import JS.
Local Open Scope js_scope.
Context {W : Type}.

(** X8.  [ifElse(c, t, e)] on a chain that carries [v], where [c(v)] gives
    the value [b], possibly through a promise: [c] is called with [v], then
    exactly one of [t] and [e] is called with [v], [t] when [b] is truthy and
    [e] otherwise, and the outcome is made from what that branch returns or
    throws: the promise resolved with its result, or rejected with what it
    threw.  Both classes, for the calls and for the outcome. *)
Theorem ifElse_calls_exactly_one_branch
    (c t e : ufun W val) (this : Lazy.Pieper W) s v s1 cv w2 b :
  Lazy.run this s = (Return (Fulfilled v), s1) ->
  body c v (world s1) = (Return cv, w2) ->
  settle cv = Fulfilled b ->
  Lazy.run (Lazy.ifElse (call c) (call t) (call e) this) s
  = settling (call (if truthy b then t else e) v)
      (mkState w2 (trace s1 ++ [Invoked (name c) v]))
  /\ trace (snd (Lazy.run (Lazy.ifElse (call c) (call t) (call e) this) s))
     = trace s1 ++ [Invoked (name c) v; Invoked (name (if truthy b then t else e)) v]
  /\ trace (snd (Eager.ifElse (call c) (call t) (call e)
                   (Eager.new_Pieper (Fulfilled v)) s1))
     = trace s1 ++ [Invoked (name c) v; Invoked (name (if truthy b then t else e)) v]
  /\ Eager.ifElse (call c) (call t) (call e) (Eager.new_Pieper (Fulfilled v)) s1
     = (q <- settling (call (if truthy b then t else e) v) ;;
        ret (Eager.new_Pieper q))
         (mkState w2 (trace s1 ++ [Invoked (name c) v])).
Proof.
  intros H Hc Hb.
  assert (Hplain : settle b = Fulfilled b)
    by exact (settle_plain b (settle_fulfilled _ _ Hb)).
  repeat split.
  - unfold Lazy.run, Lazy.ifElse in *; simpl. unfold_js.
    rewrite H, Hc, Hb. cbv beta iota delta [world trace].
    destruct (truthy b); cbv beta iota;
      [destruct (body t v w2) as [[r | x] w3] | destruct (body e v w2) as [[r | x] w3]];
      cbv beta iota; try reflexivity; now rewrite settle_settled.
  - unfold Lazy.run, Lazy.ifElse in *; simpl. unfold_js.
    rewrite H, Hc, Hb. simpl.
    destruct (truthy b); simpl;
      [destruct (body t v w2) as [[r | x] w3] | destruct (body e v w2) as [[r | x] w3]];
      simpl; now rewrite <- app_assoc.
  - unfold Eager.ifElse; simpl. unfold_js.
    rewrite Hc, settle_settled, Hb. simpl.
    destruct (truthy b); simpl;
      [destruct (body t v w2) as [[r | x] w3] | destruct (body e v w2) as [[r | x] w3]];
      simpl; now rewrite <- app_assoc.
  - unfold Eager.ifElse; simpl. unfold_js.
    rewrite Hc, settle_settled, Hb. cbv beta iota delta [world trace].
    destruct (truthy b); cbv beta iota;
      [destruct (body t v w2) as [[r | x] w3] | destruct (body e v w2) as [[r | x] w3]];
      cbv beta iota; try reflexivity; now rewrite settle_settled.
Qed.

(** X9.  [ifElse(c, t, e)] and [if(c, t)] on a chain that carries [v]: when
    [c(v)] throws [x], or gives a promise rejected with [x], the new pipeline
    fails with [x] in the state that [c] left, so neither branch is called.
    Both classes. *)
Theorem conditional_fails_with_its_condition
    (condition thenFn elseFn : callback W) (this : Lazy.Pieper W) s v s1 x s2 :
  Lazy.run this s = (Return (Fulfilled v), s1) ->
  (condition v s1 = (Throw x, s2)
   \/ exists cv, condition v s1 = (Return cv, s2) /\ settle cv = Rejected x) ->
  Lazy.run (Lazy.ifElse condition thenFn elseFn this) s = (Return (Rejected x), s2)
  /\ Lazy.run (Lazy.if_ condition thenFn this) s = (Return (Rejected x), s2)
  /\ Eager.ifElse condition thenFn elseFn (Eager.new_Pieper (Fulfilled v)) s1
     = (Return (Eager.new_Pieper (Rejected x)), s2)
  /\ Eager.if_ condition thenFn (Eager.new_Pieper (Fulfilled v)) s1
     = (Return (Eager.new_Pieper (Rejected x)), s2).
Proof.
  intros H [Hc | [cv [Hc Hcv]]]; repeat split;
    unfold Lazy.run, Lazy.if_, Lazy.ifElse, Eager.if_, Eager.ifElse in *;
    simpl; unfold_js; rewrite ?H, Hc; try reflexivity;
    rewrite ?settle_settled, Hcv; reflexivity.
Qed.

(** X10.  In the eager class, chaining any number of [map], [if], [ifElse],
    [tap], [log] and [assert] steps to a pipeline whose value is rejected
    returns a pipeline with the same rejection and leaves the state as it
    was: none of their functions is called. *)
Theorem Eager_failure_short_circuits (this : Eager.Pieper) (e : val) :
  Eager.value this = Rejected e ->
  forall (steps : list (Eager.step W)) (s : state W),
    forallb Bridge.on_success_only steps = true ->
    exists p,
      Eager.chain this steps s = (Return p, s) /\ Eager.value p = Rejected e.
Proof.
  intros H steps; revert this H.
  induction steps as [ | st rest IH]; intros this H s Hsteps.
  - exists this. split; [reflexivity | exact H].
  - simpl in Hsteps. apply andb_prop in Hsteps as [Hst Hrest].
    assert (Hstep : Eager.apply st this s
                    = (Return (Eager.new_Pieper (Rejected e)), s)).
    { destruct st; simpl in Hst; try discriminate; simpl;
        unfold Eager.map, Eager.if_, Eager.ifElse, Eager.log, Eager.tap,
          Eager.assert; rewrite H; reflexivity. }
    simpl. rewrite (bind_return _ _ _ _ _ Hstep).
    apply IH; [reflexivity | exact Hrest].
Qed.

(** X11.  [finally(f)] on a chain that gave the promise [p] calls [f] once,
    without arguments, whether [p] is fulfilled or rejected.  The outcome is
    [p] again when [f] returns, whatever it returns, unless that is a
    rejected promise; it is the rejection with [f]'s error when [f] throws or
    returns a rejected promise.  Both classes. *)
Theorem finally_calls_once_and_keeps_the_outcome
    (f : ufun W val) (this : Lazy.Pieper W) s p s1 :
  Lazy.run this s = (Return p, s1) ->
  let q := match fst (body f VUndefined (world s1)) with
           | Return r =>
               match settle r with
               | Fulfilled _ => p
               | Rejected e' => Rejected e'
               end
           | Throw e' => Rejected e'
           end in
  let s2 := mkState (snd (body f VUndefined (world s1)))
              (trace s1 ++ [Invoked (name f) VUndefined]) in
  Lazy.run (Lazy.finally (call f) this) s = (Return q, s2)
  /\ Eager.finally (call f) (Eager.new_Pieper p) s1
     = (Return (Eager.new_Pieper q), s2).
Proof.
  intros H q s2; subst q s2.
  unfold Lazy.run, Lazy.finally, Eager.finally in *; simpl. unfold_js.
  rewrite H. destruct (body f VUndefined (world s1)) as [[r | e'] w2]; simpl.
  - destruct (settle r); split; reflexivity.
  - split; reflexivity.
Qed.

(** X12.  The lazy [assert(predicate, err)] on a chain that carries [v],
    where [predicate(v)] returns [c]: when [c] is, or fulfils with, a truthy
    value the pipeline carries [v] on; when it is falsy (so also [0], [""]
    and [undefined]) the pipeline fails with the error made from [err]; when
    [c] is a rejected promise the pipeline fails with that rejection, not with
    [err]. *)
Theorem Lazy_assert_decides_by_truthiness
    (predicate : callback W) (err : val) (this : Lazy.Pieper W) s v s1 c s2 :
  Lazy.run this s = (Return (Fulfilled v), s1) ->
  is_thenable v = false ->
  predicate v s1 = (Return c, s2) ->
  Lazy.run (Lazy.assert predicate err this) s
  = (Return match settle c with
            | Fulfilled b => if truthy b then Fulfilled v else Rejected (error_of err)
            | Rejected x => Rejected x
            end, s2).
Proof.
  unfold Lazy.run, Lazy.assert; simpl. intros H Hv Hp. unfold_js.
  rewrite H, Hp. destruct (settle c) as [b | x]; [ | reflexivity].
  destruct (truthy b); simpl; [ | reflexivity].
  rewrite (settle_plain v Hv); simpl. now rewrite (settle_plain v Hv).
Qed.


End Branches.

(** [of(7).ifElse(x => x > 5, x => x * 10, x => x + 1)] calls the condition
    and the first branch. *)
Lemma ifElse_one_branch_witness :
  JS.trace (snd (Lazy.run (Lazy.ifElse (JS.call Examples.gt5) (JS.call Examples.times10)
                          (JS.call Examples.plus1) (Lazy.of_ (JS.VNum 7)))
                Examples.s0))
  = [JS.Invoked "x => x > 5" (JS.VNum 7); JS.Invoked "x => x * 10" (JS.VNum 7)].
Proof.
  apply (ifElse_calls_exactly_one_branch Examples.gt5 Examples.times10
           Examples.plus1 (Lazy.of_ (JS.VNum 7)) Examples.s0 (JS.VNum 7)
           Examples.s0 (JS.VBool true) tt (JS.VBool true)); reflexivity.
Defined.

(** [of(7).ifElse(() => { throw new Error("boom") }, ...)] *)
Lemma conditional_fails_witness :
  Lazy.run (Lazy.ifElse (JS.call Examples.boom) (JS.call Examples.times10)
              (JS.call Examples.plus1) (Lazy.of_ (JS.VNum 7)))
    Examples.s0
  = (JS.Return (JS.Rejected (JS.VError "boom")),
     JS.mkState tt [JS.Invoked "() => { throw new Error('boom') }" (JS.VNum 7)]).
Proof.
  apply (conditional_fails_with_its_condition (JS.call Examples.boom)
           (JS.call Examples.times10) (JS.call Examples.plus1)
           (Lazy.of_ (JS.VNum 7)) Examples.s0 (JS.VNum 7) Examples.s0).
  - reflexivity.
  - left. reflexivity.
Defined.

(** A rejected value followed by [map], [tap] and [assert]. *)
Lemma Eager_failure_short_circuits_witness :
  exists p,
    Eager.chain (Eager.new_Pieper (JS.Rejected (JS.VError "boom")))
      [Eager.SMap (JS.call Examples.times10);
       Eager.STap (JS.call Examples.noop);
       Eager.SAssert (JS.call Examples.gt20) (JS.VStr "too small")]
      Examples.s0
    = (JS.Return p, Examples.s0)
    /\ Eager.value p = JS.Rejected (JS.VError "boom").
Proof.
  apply (Eager_failure_short_circuits
           (Eager.new_Pieper (JS.Rejected (JS.VError "boom"))) (JS.VError "boom"));
    reflexivity.
Defined.

(** [of(Promise.reject(new Error("boom"))).finally(() => {})]: the function
    is called once and the rejection is kept. *)
Lemma finally_calls_once_witness :
  Lazy.run (Lazy.finally (JS.call Examples.noop)
              (Lazy.of_ (JS.VPromise (JS.Rejected (JS.VError "boom")))))
    Examples.s0
  = (JS.Return (JS.Rejected (JS.VError "boom")),
     JS.mkState tt [JS.Invoked "() => {}" JS.VUndefined]).
Proof.
  apply (finally_calls_once_and_keeps_the_outcome Examples.noop
           (Lazy.of_ (JS.VPromise (JS.Rejected (JS.VError "boom"))))
           Examples.s0 (JS.Rejected (JS.VError "boom")) Examples.s0).
  reflexivity.
Defined.

(** [of(10).assert(x => x > 5, "too small")] carries 10 on. *)
Lemma Lazy_assert_witness :
  Lazy.run (Lazy.assert (JS.call Examples.gt5) (JS.VStr "too small")
              (Lazy.of_ (JS.VNum 10)))
    Examples.s0
  = (JS.Return (JS.Fulfilled (JS.VNum 10)),
     JS.mkState tt [JS.Invoked "x => x > 5" (JS.VNum 10)]).
Proof.
  apply (Lazy_assert_decides_by_truthiness (JS.call Examples.gt5)
           (JS.VStr "too small") (Lazy.of_ (JS.VNum 10)) Examples.s0
           (JS.VNum 10) Examples.s0 (JS.VBool true)); reflexivity.
Defined.


(* ===================================================================== *)
(** * Steps that change nothing, and what every pipeline keeps *)
(* ===================================================================== *)

Section Invariants.
Import JS Bridge.
Local Open Scope js_scope.
Context {W : Type}.

(** X14.  Three steps leave a lazy chain as it is, outcome and state:
    [map(x => x)], on a chain whose promise is not fulfilled with a promise;
    [catch(e => { throw e })]; and [finally(() => {})] with a function that
    does nothing. *)
Theorem identity_steps (this : Lazy.Pieper W) (s : state W) :
  plain_outcome (fst (Lazy.run this s)) = true ->
  Lazy.run (Lazy.map (fun x => ret x) this) s = Lazy.run this s
  /\ Lazy.run (Lazy.catch (fun e => throw e) this) s = Lazy.run this s
  /\ Lazy.run (Lazy.finally (fun _ => ret VUndefined) this) s = Lazy.run this s.
Proof.
  unfold Lazy.run, Lazy.map, Lazy.catch, Lazy.finally; simpl. unfold_js.
  destruct (Lazy.thunk this s) as [[[v | e] | e] s1]; simpl; intros H;
    repeat split; try reflexivity.
  apply negb_true_iff in H. now rewrite (settle_plain v H).
Qed.

Lemma settle_is_plain (v : val) : plainly_settled (settle v) = true.
Proof.
  destruct (settle v) as [a | e] eqn:E; simpl; [ | reflexivity].
  now rewrite (settle_fulfilled _ _ E).
Qed.

Lemma settling_gives_a_plain_promise (job : X W val) (s : state W) :
  exists q s', settling job s = (Return q, s') /\ plainly_settled q = true.
Proof.
  unfold settling. destruct (job s) as [[r | e] s']; do 2 eexists; split;
    try reflexivity. apply settle_is_plain.
Qed.

(** The promise methods never throw and give a plain promise from a plain
    one. *)
Lemma promise_methods_give_plain_promises (p : promise val) (fn : callback W) s :
  plainly_settled p = true ->
  (exists q s', then_ p fn s = (Return q, s') /\ plainly_settled q = true)
  /\ (exists q s', catch_ p fn s = (Return q, s') /\ plainly_settled q = true)
  /\ (exists q s', finally_ p fn s = (Return q, s') /\ plainly_settled q = true).
Proof.
  intros Hp. repeat split.
  - destruct p as [v | e]; simpl;
      [apply settling_gives_a_plain_promise | do 2 eexists; split; reflexivity].
  - destruct p as [v | e]; simpl;
      [do 2 eexists; split; [reflexivity | exact Hp]
      | apply settling_gives_a_plain_promise].
  - unfold finally_. destruct (fn VUndefined s) as [[r | e'] s']; simpl.
    + destruct (settle r); do 2 eexists; split; try reflexivity; exact Hp.
    + do 2 eexists; split; reflexivity.
Qed.

Lemma Eager_step_returns (st : Eager.step W) (this : Eager.Pieper) s :
  plainly_settled (Eager.value this) = true ->
  exists p s',
    Eager.apply st this s = (Return p, s')
    /\ plainly_settled (Eager.value p) = true.
Proof.
  intros Hp.
  destruct st; simpl;
    unfold Eager.map, Eager.if_, Eager.ifElse, Eager.log, Eager.tap,
      Eager.catch, Eager.finally, Eager.assert;
    match goal with
    | |- context [bind (?m (Eager.value this) ?cb)] =>
        let Hm := fresh in
        pose proof (promise_methods_give_plain_promises
                      (Eager.value this) cb s Hp) as Hm;
        destruct Hm as [[q1 [s1 [E1 P1]]] [[q2 [s2 [E2 P2]]] [q3 [s3 [E3 P3]]]]];
        first [ rewrite (bind_return _ _ _ _ _ E1); exists (Eager.new_Pieper q1), s1
              | rewrite (bind_return _ _ _ _ _ E2); exists (Eager.new_Pieper q2), s2
              | rewrite (bind_return _ _ _ _ _ E3); exists (Eager.new_Pieper q3), s3 ];
        split; [reflexivity | assumption]
    end.
Qed.

(** X15.  In the eager class, building a chain never throws, whatever the
    root producer and the steps' functions do: [of] or [from] followed by any
    steps returns a pipeline, and the promise it holds is never fulfilled
    with a promise. *)
Theorem Eager_construction_never_throws
    (r : Eager.root W) (steps : list (Eager.step W)) (s : state W) :
  exists p s',
    Eager.construct r steps s = (Return p, s')
    /\ plainly_settled (Eager.value p) = true.
Proof.
  assert (Hroot : exists p s', Eager.start r s = (Return p, s')
                    /\ plainly_settled (Eager.value p) = true).
  { destruct r as [v | fn]; simpl.
    - do 2 eexists; split; [reflexivity | apply settle_is_plain].
    - unfold Eager.from, new_Promise.
      destruct (settling_gives_a_plain_promise (fn VUndefined) s)
        as [q [s' [E P]]].
      rewrite (bind_return _ _ _ _ _ E). do 2 eexists; split; [reflexivity | exact P]. }
  destruct Hroot as [p0 [s0 [E0 P0]]].
  unfold Eager.construct. rewrite (bind_return _ _ _ _ _ E0).
  clear E0. revert p0 s0 P0.
  induction steps as [ | st rest IH]; intros p0 s0 P0.
  - do 2 eexists; split; [reflexivity | exact P0].
  - destruct (Eager_step_returns st p0 s0 P0) as [p1 [s1 [E1 P1]]].
    simpl. rewrite (bind_return _ _ _ _ _ E1). now apply IH.
Qed.

Lemma Lazy_step_keeps_plain (st : Lazy.step W) (this : Lazy.Pieper W) s :
  plain_outcome (fst (Lazy.thunk this s)) = true ->
  plain_outcome (fst (Lazy.thunk (Lazy.apply st this) s)) = true.
Proof.
  intros H.
  destruct st; simpl;
    unfold bind; destruct (Lazy.thunk this s) as [[p | e] s1]; simpl in *;
    try reflexivity;
    match goal with
    | |- context [?m p ?cb s1] =>
        let Hm := fresh in
        pose proof (promise_methods_give_plain_promises p cb s1 H) as Hm;
        destruct Hm as [[q1 [t1 [E1 P1]]] [[q2 [t2 [E2 P2]]] [q3 [t3 [E3 P3]]]]];
        first [ rewrite E1; exact P1 | rewrite E2; exact P2 | rewrite E3; exact P3 ]
    end.
Qed.

(** In the lazy class, whenever the run of a chain built from [of] or
    [from] and any steps gives a promise, that promise is not fulfilled with a
    promise: values that are promises are flattened at every step. *)
Lemma Lazy_run_gives_a_plain_promise
    (r : Lazy.root W) (steps : list (Lazy.step W)) (s : state W) :
  plain_outcome (fst (Lazy.run (Lazy.chain (Lazy.start r) steps) s)) = true.
Proof.
  unfold Lazy.run.
  assert (Hroot : plain_outcome (fst (Lazy.thunk (Lazy.start r) s)) = true).
  { destruct r as [v | fn]; simpl.
    - apply settle_is_plain.
    - unfold bind. destruct (fn VUndefined s) as [[x | e] s']; simpl;
        [apply settle_is_plain | reflexivity]. }
  revert Hroot. generalize (Lazy.start r).
  induction steps as [ | st rest IH]; intros this H; [exact H | ].
  change (Lazy.chain this (st :: rest)) with (Lazy.chain (Lazy.apply st this) rest).
  apply IH. now apply Lazy_step_keeps_plain.
Qed.

End Invariants.

(** [of(5)] followed by [map(x => x)]. *)
Lemma identity_steps_witness :
  Lazy.run (Lazy.map (fun x => JS.ret x) (Lazy.of_ (JS.VNum 5))) Examples.s0
  = Lazy.run (Lazy.of_ (JS.VNum 5)) Examples.s0.
Proof.
  apply (identity_steps (Lazy.of_ (JS.VNum 5)) Examples.s0). reflexivity.
Defined.

(* ===================================================================== *)
(** * Where the two classes agree *)
(* ===================================================================== *)

Section Agreement.
Import JS Bridge.
Local Open Scope js_scope.
Context {W : Type}.

Lemma promise_methods_return (p : promise val) (fn : callback W) s :
  (exists q s', then_ p fn s = (Return q, s'))
  /\ (exists q s', catch_ p fn s = (Return q, s'))
  /\ (exists q s', finally_ p fn s = (Return q, s')).
Proof.
  repeat split.
  - destruct p as [v | e]; unfold then_; [ | do 2 eexists; reflexivity].
    destruct (settling_returns (fn v) s) as [q E].
    exists q, (snd (fn v s)). exact E.
  - destruct p as [v | e]; unfold catch_; [do 2 eexists; reflexivity | ].
    destruct (settling_returns (fn e) s) as [q E].
    exists q, (snd (fn e s)). exact E.
  - unfold finally_. destruct (fn VUndefined s) as [[r | e'] s'];
      [destruct (settle r) | ]; do 2 eexists; reflexivity.
Qed.

(** A step other than [assert] is, in both classes, the same continuation of
    the promise before it; the eager class wraps the result in a pipeline. *)
Lemma step_is_the_same_continuation (st : Eager.step W) :
  no_assert st = true ->
  exists k : promise val -> X W (promise val),
    (forall pl, Lazy.thunk (Lazy.apply (lazy_step st) pl) = bind (Lazy.thunk pl) k)
    /\ (forall pe s,
           Eager.apply st pe s
           = bind (k (Eager.value pe)) (fun nv => ret (Eager.new_Pieper nv)) s)
    /\ (forall p s, exists q s', k p s = (Return q, s')).
Proof.
  intros Hna.
  destruct st; try discriminate; simpl; eexists;
    (split; [intros pl; reflexivity | split; [intros pe s | intros p s]]);
    try (cbv beta;
         match goal with
         | |- exists q s', ?m ?p0 ?cb ?s0 = _ =>
             destruct (promise_methods_return p0 cb s0) as [Ht [Hc Hf]];
             first [exact Ht | exact Hc | exact Hf]
         end);
    unfold Eager.map, Eager.if_, Eager.ifElse, Eager.log, Eager.tap,
      Eager.catch, Eager.finally; try reflexivity;
    destruct (Eager.value pe) as [v | e]; try reflexivity; unfold_js.
  - destruct (condition v s) as [[c | e] s2]; [ | reflexivity].
    now rewrite settle_settled.
  - destruct (condition v s) as [[c | e] s2]; [ | reflexivity].
    now rewrite settle_settled.
  - destruct (fn v s) as [[r | e] s2]; [ | reflexivity].
    now rewrite settle_settled.
  - destruct (truthy message); reflexivity.
Qed.

Lemma chains_agree (steps : list (Eager.step W)) :
  forallb no_assert steps = true ->
  forall (pe : Eager.Pieper) (pl : Lazy.Pieper W) s0 s,
    Lazy.thunk pl s0 = (Return (Eager.value pe), s) ->
    exists pe' s',
      Eager.chain pe steps s = (Return pe', s')
      /\ Lazy.thunk (Lazy.chain pl (List.map lazy_step steps)) s0
         = (Return (Eager.value pe'), s').
Proof.
  induction steps as [ | st rest IH]; intros Hsteps pe pl s0 s H.
  - exists pe, s. split; [reflexivity | exact H].
  - simpl in Hsteps. apply andb_prop in Hsteps as [Hst Hrest].
    destruct (step_is_the_same_continuation st Hst) as [k [Hl [He Hk]]].
    destruct (Hk (Eager.value pe) s) as [q [s1 Eq]].
    assert (E1 : Eager.apply st pe s = (Return (Eager.new_Pieper q), s1)).
    { rewrite He. now rewrite (bind_return _ _ _ _ _ Eq). }
    assert (L1 : Lazy.thunk (Lazy.apply (lazy_step st) pl) s0
                 = (Return (Eager.value (Eager.new_Pieper q)), s1)).
    { rewrite Hl. now rewrite (bind_return _ _ _ _ _ H). }
    destruct (IH Hrest _ _ _ _ L1) as [pe' [s' [E2 L2]]].
    exists pe', s'. split.
    + simpl. now rewrite (bind_return _ _ _ _ _ E1).
    + exact L2.
Qed.

(** X16.  For a chain without [assert] whose root producer does not throw
    when it is called, building the chain in the eager class and calling
    [run()] gives what [run()] gives on the same chain in the lazy class:
    the same promise, the same calls and console lines in the same order,
    the same final state. *)
Theorem eager_and_lazy_agree
    (r : Eager.root W) (steps : list (Eager.step W)) (s : state W) :
  forallb no_assert steps = true ->
  root_returns r s ->
  (p <- Eager.construct r steps ;; Eager.run p) s
  = Lazy.run (Lazy.chain (Lazy.start (lazy_root r)) (List.map lazy_step steps)) s.
Proof.
  intros Hsteps Hr.
  assert (Hroot : exists pe s1,
             Eager.start r s = (Return pe, s1)
             /\ Lazy.thunk (Lazy.start (lazy_root r)) s = (Return (Eager.value pe), s1)).
  { destruct r as [v | fn]; simpl in *.
    - do 2 eexists; split; reflexivity.
    - destruct Hr as [x [s1 Hfn]].
      exists (Eager.new_Pieper (settle x)), s1.
      unfold Eager.from, new_Promise, settling, Promise_resolve, bind, ret.
      rewrite Hfn. split; reflexivity. }
  destruct Hroot as [pe [s1 [E0 L0]]].
  destruct (chains_agree steps Hsteps pe _ s s1 L0) as [pe' [s' [E1 L1]]].
  unfold Lazy.run. rewrite L1.
  unfold Eager.construct.
  rewrite (bind_return _ _ _ _ _
             (eq_trans (bind_return _ _ _ _ _ E0) E1)).
  reflexivity.
Qed.

End Agreement.

(** [of(5).map(x => x + 2).tap(() => {}).if(x => x > 5, x => x * 10)
       .log("After .if:").catch(e => 0).finally(() => {})] *)
Lemma eager_and_lazy_agree_witness :
  JS.bind (Eager.construct (Eager.ROf (JS.VNum 5))
             [Eager.SMap (JS.call Examples.plus2);
              Eager.STap (JS.call Examples.noop);
              Eager.SIf (JS.call Examples.gt5) (JS.call Examples.times10);
              Eager.SLog (JS.VStr "After .if:");
              Eager.SCatch (JS.call Examples.zero);
              Eager.SFinally (JS.call Examples.noop)])
          Eager.run Examples.s0
  = Lazy.run
      (Lazy.chain (Lazy.start (Bridge.lazy_root (Eager.ROf (JS.VNum 5))))
         (List.map Bridge.lazy_step
            [Eager.SMap (JS.call Examples.plus2);
             Eager.STap (JS.call Examples.noop);
             Eager.SIf (JS.call Examples.gt5) (JS.call Examples.times10);
             Eager.SLog (JS.VStr "After .if:");
             Eager.SCatch (JS.call Examples.zero);
             Eager.SFinally (JS.call Examples.noop)]))
      Examples.s0.
Proof.
  apply (eager_and_lazy_agree (Eager.ROf (JS.VNum 5))); [reflexivity | exact I].
Defined.

(* ===================================================================== *)
(** * Chains of [map], and recovery *)
(* ===================================================================== *)

Section Pipelines.
Import JS Bridge.
Local Open Scope js_scope.
Context {W : Type}.

Lemma maps_after_failure (fns : list (callback W)) :
  forall (this : Lazy.Pieper W) s e s1,
    Lazy.run this s = (Return (Rejected e), s1) ->
    Lazy.run (Lazy.chain this (List.map (@Lazy.SMap W) fns)) s
    = (Return (Rejected e), s1).
Proof.
  induction fns as [ | fn rest IH]; intros this s e s1 H; [exact H | ].
  simpl. apply IH. unfold Lazy.run, Lazy.map in *; simpl.
  now rewrite (bind_return _ _ _ _ _ H).
Qed.

(** X17.  A lazy chain [p.map(f1).map(f2)...map(fn)] on a [p] that carries
    [v] runs as the loop that passes [v] through [f1], ..., [fn] in this
    order: each function is called once with the awaited result of the one
    before, and the first function that throws or gives a rejected promise
    ends the run with that failure, the later ones not being called. *)
Theorem maps_run_as_a_loop (fns : list (callback W)) :
  forall (this : Lazy.Pieper W) s v s1,
    Lazy.run this s = (Return (Fulfilled v), s1) ->
    is_thenable v = false ->
    Lazy.run (Lazy.chain this (List.map (@Lazy.SMap W) fns)) s
    = pipe_through fns v s1.
Proof.
  induction fns as [ | fn rest IH]; intros this s v s1 H Hv; [exact H | ].
  simpl.
  assert (Hstep : Lazy.run (Lazy.map fn this) s = settling (fn v) s1).
  { unfold Lazy.run, Lazy.map in *; simpl.
    now rewrite (bind_return _ _ _ _ _ H). }
  unfold settling in Hstep.
  destruct (fn v s1) as [[r | e] s2].
  - destruct (settle r) as [a | e] eqn:Er.
    + apply (IH _ _ _ _ Hstep). exact (settle_fulfilled _ _ Er).
    + now apply maps_after_failure.
  - now apply maps_after_failure.
Qed.

(** X18.  [catch(h)] with a handler that always returns, and never a
    rejected promise, leaves no rejection behind: on a chain that gave a
    promise, [catch(h).runSafe()] resolves to [{ok: true, value}]; and when
    the promise was fulfilled, [h] is not called and the value is the one
    the chain carried. *)
Theorem catch_with_a_total_handler_recovers
    (h : callback W) (this : Lazy.Pieper W) s p s1 :
  (forall e t, exists r t' a, h e t = (Return r, t') /\ settle r = Fulfilled a) ->
  Lazy.run this s = (Return p, s1) ->
  plainly_settled p = true ->
  (exists a s2, Lazy.runSafe (Lazy.catch h this) s = (Return (Fulfilled (VOk a)), s2))
  /\ (forall v, p = Fulfilled v ->
        Lazy.runSafe (Lazy.catch h this) s = (Return (Fulfilled (VOk v)), s1)).
Proof.
  intros Hh H Hp.
  unfold Lazy.run, Lazy.runSafe, Lazy.catch in *; simpl. unfold_js. rewrite H.
  destruct p as [v | e]; simpl in Hp.
  - apply negb_true_iff in Hp. split.
    + exists v, s1. simpl. now rewrite (settle_plain v Hp).
    + intros v' Hv'. inversion Hv'; subst. simpl. now rewrite (settle_plain v' Hp).
  - split; [ | discriminate].
    destruct (Hh e s1) as [r [t' [a [Eh Er]]]]. rewrite Eh, Er. simpl.
    exists a, t'. now rewrite (settle_plain a (settle_fulfilled _ _ Er)).
Qed.

End Pipelines.

(** [of(1).map(x => x + 1).map(x => x * 10).map(x => x + 2)] *)
Lemma maps_run_as_a_loop_witness :
  Lazy.run (Lazy.chain (Lazy.of_ (JS.VNum 1))
              (List.map (@Lazy.SMap unit)
                 [JS.call Examples.plus1; JS.call Examples.times10;
                  JS.call Examples.plus2]))
    Examples.s0
  = Bridge.pipe_through
      [JS.call Examples.plus1; JS.call Examples.times10; JS.call Examples.plus2]
      (JS.VNum 1) Examples.s0.
Proof.
  apply (maps_run_as_a_loop
           [JS.call Examples.plus1; JS.call Examples.times10; JS.call Examples.plus2]
           (Lazy.of_ (JS.VNum 1)) Examples.s0 (JS.VNum 1) Examples.s0);
    reflexivity.
Defined.

Example maps_example :
  Bridge.pipe_through
    [JS.call Examples.plus1; JS.call Examples.times10; JS.call Examples.plus2]
    (JS.VNum 1) Examples.s0
  = (JS.Return (JS.Fulfilled (JS.VNum 22)),
     JS.mkState tt [JS.Invoked "x => x + 1" (JS.VNum 1);
                    JS.Invoked "x => x * 10" (JS.VNum 2);
                    JS.Invoked "x => x + 2" (JS.VNum 20)]).
Proof. reflexivity. Qed.

(** [of(Promise.reject(new Error("boom"))).catch(e => 0).runSafe()] *)
Lemma catch_recovers_witness :
  exists a s2,
    Lazy.runSafe (Lazy.catch (JS.call Examples.zero)
                    (Lazy.of_ (JS.VPromise (JS.Rejected (JS.VError "boom")))))
      Examples.s0
    = (JS.Return (JS.Fulfilled (JS.VOk a)), s2).
Proof.
  apply (catch_with_a_total_handler_recovers (JS.call Examples.zero)
           (Lazy.of_ (JS.VPromise (JS.Rejected (JS.VError "boom"))))
           Examples.s0 (JS.Rejected (JS.VError "boom")) Examples.s0).
  - intros e t. exists (JS.VNum 0), (JS.mkState (JS.world t)
                          (JS.trace t ++ [JS.Invoked "e => 0" e])), (JS.VNum 0).
    split; reflexivity.
  - reflexivity.
  - reflexivity.
Defined.
